(** * AISWEI / Solplanet cloud API client: request signing and telemetry
      normalisation.

    A shallow embedding of [aiswei_api.py] (class [AisweiSolarAPI]) and of
    [openhab_solplanet.py] ([is_api_success], [extract_live_data], [main]).

    Conventions of the embedding:
    - a Python [str] is a [string]; its characters are the code points
      0..255, compared by code point as Python compares them;
    - [bytes] are lists of [byte];
    - Python integers are [Z], Python floats are IEEE binary64 values in
      the form of [spec_float] with precision 53 and maximal exponent 1024;
    - a Python [dict] is an association list in insertion order;
    - a call that may raise returns a [res]: either a value or the
      exception that escapes. *)

From Stdlib Require Import String Ascii List ZArith NArith Bool Lia.
From Stdlib Require Import Strings.Byte.
From Stdlib Require Import Sorted Permutation.
From Stdlib Require Import Floats.SpecFloat.
Import ListNotations.

Local Open Scope list_scope.
Local Open Scope string_scope.

(** ** Python string operations used by the request builder *)

Module PyStr.

(** [c in s] for a one-character needle. *)
Fixpoint contains (c : ascii) (s : string) : bool :=
  match s with
  | EmptyString => false
  | String a s' => if Ascii.eqb a c then true else contains c s'
  end.

(** Number of occurrences of [c] in [s] ([s.count(c)]). *)
Fixpoint count (c : ascii) (s : string) : nat :=
  match s with
  | EmptyString => 0
  | String a s' => (if Ascii.eqb a c then 1 else 0) + count c s'
  end.

(** [s.split(sep)] for a one-character separator: every occurrence of
    the separator cuts; the result is never empty. *)
Fixpoint split (sep : ascii) (s : string) : list string :=
  match s with
  | EmptyString => [EmptyString]
  | String a s' =>
      if Ascii.eqb a sep then EmptyString :: split sep s'
      else match split sep s' with
           | [] => [String a EmptyString]
           | h :: t => String a h :: t
           end
  end.

(** [sep.join(l)]. *)
Definition join (sep : string) (l : list string) : string :=
  String.concat sep l.

(** [sorted(l)] on a list of [str]: ascending code-point order.  The
    order is total and antisymmetric, so the sorted list is unique (see
    [sorted_unique]) and any sorting algorithm computes what Python's
    does. *)
Fixpoint insert (x : string) (l : list string) : list string :=
  match l with
  | [] => [x]
  | y :: l' => if String.leb x y then x :: l else y :: insert x l'
  end.

Fixpoint sorted (l : list string) : list string :=
  match l with
  | [] => []
  | x :: l' => insert x (sorted l')
  end.

Definition le (a b : string) : Prop := String.leb a b = true.

End PyStr.

(** ** The API client, [aiswei_api.py] *)

(** The attributes set by [AisweiSolarAPI.__init__]. *)
Record AisweiSolarAPI : Type := {
  app_key : string;
  app_secret : string;
  api_key : string;
  token : string;
  sn : string;
  base_url : string
}.

Definition init (app_key app_secret api_key token sn : string)
  : AisweiSolarAPI :=
  {| app_key := app_key; app_secret := app_secret; api_key := api_key;
     token := token; sn := sn;
     base_url := "https://eu-api-genergal.aisweicloud.com" |}.

Definition method : string := "GET".
Definition content_type : string := "application/json; charset=UTF-8".
Definition accept : string := "application/json".

Definition LF : string := String (ascii_of_nat 10) EmptyString.

(** Lines 55-57: the three authentication parameters. *)
Definition add_auth_params (self : AisweiSolarAPI) (endpoint : string)
  : string :=
  let endpoint :=
    endpoint ++ (if PyStr.contains "?" endpoint then "&" else "?")
             ++ "apikey=" ++ api_key self in
  let endpoint := endpoint ++ "&token=" ++ token self in
  endpoint ++ "&isnos=" ++ sn self.

(** Lines 60-63: the parameter sort. *)
Definition sort_params (endpoint : string) : string :=
  let s1 := PyStr.split "?" endpoint in
  match s1 with
  | s1_0 :: s1_1 :: _ =>
      let s2 := PyStr.sorted (PyStr.split "&" s1_1) in
      s1_0 ++ "?" ++ PyStr.join "&" s2
  | _ => endpoint
  end.

(** The value of [endpoint] from line 64 on. *)
Definition canonical_endpoint (self : AisweiSolarAPI) (endpoint : string)
  : string :=
  sort_params (add_auth_params self endpoint).

(** Line 75. *)
Definition string_to_sign (self : AisweiSolarAPI) (endpoint : string)
  : string :=
  method ++ LF ++ accept ++ LF ++ LF ++ content_type ++ LF ++ LF
         ++ "X-Ca-Key:" ++ app_key self ++ LF
         ++ canonical_endpoint self endpoint.

(** Line 87. *)
Definition url (self : AisweiSolarAPI) (endpoint : string) : string :=
  base_url self ++ canonical_endpoint self endpoint.

(** ** Library functions of the signature: UTF-8, SHA-256, HMAC, base64

    [str.encode('utf-8')], [hashlib.sha256], [hmac.new(...).digest()] and
    [base64.b64encode] belong to the Python standard library; they are
    modelled after their defining standards (RFC 3629, FIPS 180-4,
    RFC 2104, RFC 4648) so that a signature can be evaluated. *)

Module Bytes.

Definition bytes := list byte.

Definition of_N (n : N) : byte :=
  match Byte.of_N (N.land n 255) with
  | Some b => b
  | None => Byte.x00
  end.

(** [s.encode('utf-8')] for code points below 256. *)
Definition encode_char (c : ascii) : bytes :=
  let n := N_of_ascii c in
  if (n <? 128)%N then [of_N n]
  else [of_N (N.lor 192 (N.shiftr n 6)); of_N (N.lor 128 (N.land n 63))].

Fixpoint encode_utf8 (s : string) : bytes :=
  match s with
  | EmptyString => []
  | String c s' => (encode_char c ++ encode_utf8 s')%list
  end.

(** [b.decode()] of a byte string that holds ASCII only. *)
Fixpoint decode_ascii (b : bytes) : string :=
  match b with
  | [] => EmptyString
  | x :: b' => String (ascii_of_byte x) (decode_ascii b')
  end.

End Bytes.

Module SHA256.
Import Bytes.
Local Open Scope N_scope.

Definition w32 (x : N) : N := N.land x 4294967295.
Definition add32 (a b : N) : N := w32 (a + b).
Definition not32 (x : N) : N := N.lxor (w32 x) 4294967295.
Definition rotr (n x : N) : N :=
  N.lor (N.shiftr x n) (w32 (N.shiftl x (32 - n))).

Definition Ch (x y z : N) : N :=
  N.lxor (N.land x y) (N.land (not32 x) z).
Definition Maj (x y z : N) : N :=
  N.lxor (N.lxor (N.land x y) (N.land x z)) (N.land y z).
Definition Sigma0 (x : N) : N :=
  N.lxor (N.lxor (rotr 2 x) (rotr 13 x)) (rotr 22 x).
Definition Sigma1 (x : N) : N :=
  N.lxor (N.lxor (rotr 6 x) (rotr 11 x)) (rotr 25 x).
Definition sigma0 (x : N) : N :=
  N.lxor (N.lxor (rotr 7 x) (rotr 18 x)) (N.shiftr x 3).
Definition sigma1 (x : N) : N :=
  N.lxor (N.lxor (rotr 17 x) (rotr 19 x)) (N.shiftr x 10).

(** The constants of FIPS 180-4, 4.2.2 and 5.3.3: the first thirty-two
    bits of the fractional parts of the cube roots of the first sixty-four
    primes, and of the square roots of the first eight. *)
Definition is_prime (n : N) : bool :=
  (1 <? n) && forallb (fun d => negb (n mod (N.of_nat d) =? 0))
                      (seq 2 (N.to_nat n - 2)).

Definition primes : list N :=
  firstn 64 (filter is_prime (map N.of_nat (seq 0 320))).

(** The integer cube root, by bisection between [lo] and [hi]. *)
Fixpoint cbrt_between (fuel : nat) (lo hi n : N) : N :=
  match fuel with
  | O => lo
  | S fuel' =>
      let mid := (lo + hi) / 2 in
      if mid =? lo then lo
      else if mid * mid * mid <=? n then cbrt_between fuel' mid hi n
           else cbrt_between fuel' lo mid n
  end.

Definition cbrt (n : N) : N := cbrt_between 64 0 (2 ^ 40) n.

Definition K : list N :=
  Eval vm_compute in map (fun p => w32 (cbrt (p * 2 ^ 96))) primes.

Definition H0 : list N :=
  Eval vm_compute in map (fun p => w32 (N.sqrt (p * 2 ^ 64))) (firstn 8 primes).

(** Big-endian words. *)
Definition word_of_bytes (b : list N) : N :=
  fold_left (fun acc x => acc * 256 + x) b 0.

Definition bytes_of_word (n : nat) (w : N) : list N :=
  map (fun i => N.land (N.shiftr w (8 * N.of_nat i)) 255)
      (rev (seq 0 n)).

(** Padding: a 1 bit, zeros up to 56 modulo 64, the bit length on 64
    bits. *)
Definition pad (msg : list N) : list N :=
  let len := N.of_nat (length msg) in
  let zeros := N.to_nat ((119 - len mod 64) mod 64) in
  (msg ++ [128] ++ repeat 0 zeros ++ bytes_of_word 8 (8 * len))%list.

Fixpoint chunks (size n : nat) (l : list N) : list (list N) :=
  match n with
  | O => []
  | S n' => firstn size l :: chunks size n' (skipn size l)
  end.

Definition chunks_of (size : nat) (l : list N) : list (list N) :=
  chunks size (Nat.div (length l) size) l.

(** The message schedule: sixteen words of the block, then forty-eight
    derived ones. *)
Fixpoint extend (n : nat) (w : list N) : list N :=
  match n with
  | O => w
  | S n' =>
      let i := length w in
      let x := add32 (add32 (sigma1 (nth (i - 2) w 0)) (nth (i - 7) w 0))
                     (add32 (sigma0 (nth (i - 15) w 0)) (nth (i - 16) w 0)) in
      extend n' (w ++ [x])
  end.

Definition schedule (block : list N) : list N :=
  extend 48 (map word_of_bytes (chunks_of 4 block)).

Definition round (st : list N) (kw : N * N) : list N :=
  match st with
  | [a; b; c; d; e; f; g; h] =>
      let t1 := add32 (add32 (add32 h (Sigma1 e)) (Ch e f g))
                      (add32 (fst kw) (snd kw)) in
      let t2 := add32 (Sigma0 a) (Maj a b c) in
      [add32 t1 t2; a; b; c; add32 d t1; e; f; g]
  | _ => st
  end.

Definition compress (h : list N) (block : list N) : list N :=
  let st := fold_left round (combine K (schedule block)) h in
  map (fun p => add32 (fst p) (snd p)) (combine h st).

Definition digest_N (msg : list N) : list N :=
  let h := fold_left compress (chunks_of 64 (pad msg)) H0 in
  flat_map (bytes_of_word 4) h.

(** [hashlib.sha256(msg).digest()]. *)
Definition digest (msg : bytes) : bytes :=
  map of_N (digest_N (map Byte.to_N msg)).

End SHA256.

Module HMAC.
Import Bytes.
Local Open Scope N_scope.

Definition block_size : nat := 64.

Definition xor_with (c : N) (k : list N) : list N :=
  map (fun x => N.lxor x c) k.

(** [hmac.new(key, msg, hashlib.sha256).digest()], RFC 2104. *)
Definition digest_N (key msg : list N) : list N :=
  let key := if Nat.ltb block_size (length key)
             then SHA256.digest_N key else key in
  let key := (key ++ repeat 0 (block_size - length key))%list in
  SHA256.digest_N
    (xor_with 0x5c key ++ SHA256.digest_N (xor_with 0x36 key ++ msg))%list.

Definition digest (key msg : bytes) : bytes :=
  map of_N (digest_N (map Byte.to_N key) (map Byte.to_N msg)).

End HMAC.

Module Base64.
Import Bytes.
Local Open Scope N_scope.

Definition alphabet : string :=
  "ABCDEFGHIJKLMNOPQRSTUVWXYZabcdefghijklmnopqrstuvwxyz0123456789+/"%string.

Definition sextet (n : N) : byte :=
  match String.get (N.to_nat (N.land n 63)) alphabet with
  | Some c => byte_of_ascii c
  | None => Byte.x00
  end.

Definition pad_char : byte := byte_of_ascii "="%char.

(** [base64.b64encode(b)], RFC 4648 with padding. *)
Fixpoint encode_N (b : list N) : bytes :=
  match b with
  | [] => []
  | [x] =>
      [sextet (N.shiftr x 2); sextet (N.shiftl x 4); pad_char; pad_char]
  | [x; y] =>
      [sextet (N.shiftr x 2);
       sextet (N.lor (N.shiftl x 4) (N.shiftr y 4));
       sextet (N.shiftl y 2); pad_char]
  | x :: y :: z :: b' =>
      sextet (N.shiftr x 2)
      :: sextet (N.lor (N.shiftl x 4) (N.shiftr y 4))
      :: sextet (N.lor (N.shiftl y 2) (N.shiftr z 6))
      :: sextet z :: encode_N b'
  end.

Definition b64encode (b : bytes) : bytes := encode_N (map Byte.to_N b).

End Base64.

(** Lines 76-82. *)
Definition signature (self : AisweiSolarAPI) (endpoint : string) : string :=
  Bytes.decode_ascii
    (Base64.b64encode
       (HMAC.digest (Bytes.encode_utf8 (app_secret self))
                    (Bytes.encode_utf8 (string_to_sign self endpoint)))).

(** ** Python values and exceptions *)

(** The values [json.loads] produces, which are also the values the two
    scripts build. *)
#[warnings="-register-all"]
Inductive pyval : Type :=
| PNone
| PBool (b : bool)
| PInt (z : Z)
| PFloat (f : spec_float)
| PStr (s : string)
| PList (l : list pyval)
| PDict (d : list (string * pyval)).

Definition dict : Type := list (string * pyval).

Inductive exn_class : Type :=
| RequestException   (* requests.exceptions.RequestException and subclasses *)
| ValueError
| TypeError
| OverflowError
| AttributeError
| IndexError
| OtherException.    (* any other subclass of Exception *)

(** An exception: its class and [str(e)]. *)
Inductive exn : Type := Exn (c : exn_class) (msg : string).

Definition exn_cls (e : exn) : exn_class := let 'Exn c _ := e in c.
Definition exn_str (e : exn) : string := let 'Exn _ m := e in m.

(** The outcome of a call: a returned value or an escaping exception. *)
Inductive res (A : Type) : Type :=
| Return (a : A)
| Raise (e : exn).
Arguments Return {A} a.
Arguments Raise {A} e.

Definition bind {A B : Type} (m : res A) (k : A -> res B) : res B :=
  match m with
  | Return a => k a
  | Raise e => Raise e
  end.

Notation "x <- m ;; k" := (bind m (fun x => k))
  (at level 61, m at next level, right associativity).

(** [try: m  except (ValueError, TypeError): return default]. *)
Definition catching_value_type {A : Type} (m : res A) (default : A)
  : res A :=
  match m with
  | Raise (Exn ValueError _) | Raise (Exn TypeError _) => Return default
  | _ => m
  end.

Module PyDict.

(** [d.get(k)], as an option: [None] when the key is absent. *)
Fixpoint lookup (k : string) (d : dict) : option pyval :=
  match d with
  | [] => None
  | (k', v) :: d' => if String.eqb k' k then Some v else lookup k d'
  end.

(** [k in d]. *)
Definition mem (k : string) (d : dict) : bool :=
  match lookup k d with Some _ => true | None => false end.

(** [d.get(k, default)]. *)
Definition get (d : dict) (k : string) (default : pyval) : pyval :=
  match lookup k d with Some v => v | None => default end.

(** [d[k] = v]: an existing key keeps its place, a new one goes last. *)
Fixpoint set (k : string) (v : pyval) (d : dict) : dict :=
  match d with
  | [] => [(k, v)]
  | (k', v') :: d' =>
      if String.eqb k' k then (k', v) :: d' else (k', v') :: set k v d'
  end.

(** [d.update(other)]. *)
Definition update (d other : dict) : dict :=
  fold_left (fun acc kv => set (fst kv) (snd kv) acc) other d.

(** [list(d.keys())]. *)
Definition keys (d : dict) : list string := map fst d.

End PyDict.

Definition type_name (v : pyval) : string :=
  match v with
  | PNone => "NoneType"
  | PBool _ => "bool"
  | PInt _ => "int"
  | PFloat _ => "float"
  | PStr _ => "str"
  | PList _ => "list"
  | PDict _ => "dict"
  end.

(** [v.get(k, default)] on an arbitrary value: only a dict has the
    method. *)
Definition py_get (v : pyval) (k : string) (default : pyval) : res pyval :=
  match v with
  | PDict d => Return (PyDict.get d k default)
  | _ => Raise (Exn AttributeError
                    ("'" ++ type_name v ++ "' object has no attribute 'get'"))
  end.

(** ** Python floats and the builtin conversions [float] and [int] *)

Module PyFloat.
Local Open Scope Z_scope.

Definition prec : Z := 53.
Definition emax : Z := 1024.

Definition float : Type := spec_float.

(** The float nearest to the integer [z] (ties to even); an infinity
    when [z] is out of range. *)
Definition of_Z (z : Z) : float := binary_normalize prec emax z 0 false.

(** The float nearest to [n / d] (ties to even), with sign [s].  The
    quotient is taken with more than [prec] bits and the remainder decides
    the rounding, as [SFdiv] does for two floats. *)
Definition of_ratio (s : bool) (n d : positive) : float :=
  let k := Z.max 0 (Zdigits2 (Zpos d) - Zdigits2 (Zpos n) + prec + 2) in
  let '(q, r) := Z.div_eucl (Z.shiftl (Zpos n) k) (Zpos d) in
  binary_round_aux prec emax s q (- k) (new_location (Zpos d) r).

(** The float nearest to [m * 10 ^ e]. *)
Definition of_decimal (s : bool) (m : Z) (e : Z) : float :=
  match m with
  | Zpos p =>
      if 0 <=? e
      then binary_normalize prec emax
             (cond_Zopp s (Zpos p * 10 ^ e)) 0 s
      else of_ratio s p (Z.to_pos (10 ^ (- e)))
  | _ => S754_zero s
  end.

Definition div (x y : float) : float := SFdiv prec emax x y.

(** [bool(x)]: every float but the two zeros is true. *)
Definition truthy (x : float) : bool :=
  match x with S754_zero _ => false | _ => true end.

(** The integer a float equals, if it is one. *)
Definition to_Z_exact (x : float) : option Z :=
  match x with
  | S754_zero _ => Some 0
  | S754_finite s m e =>
      if 0 <=? e then Some (cond_Zopp s (Zpos m * 2 ^ e))
      else if Zpos m mod 2 ^ (- e) =? 0
           then Some (cond_Zopp s (Zpos m / 2 ^ (- e)))
           else None
  | _ => None
  end.

(** [int(x)] on a float: truncation towards zero. *)
Definition trunc (x : float) : res Z :=
  match x with
  | S754_zero _ => Return 0
  | S754_finite s m e =>
      Return (cond_Zopp s (if 0 <=? e then Zpos m * 2 ^ e
                           else Zpos m / 2 ^ (- e)))
  | S754_infinity _ =>
      Raise (Exn OverflowError "cannot convert float infinity to integer")
  | S754_nan =>
      Raise (Exn ValueError "cannot convert float NaN to integer")
  end.

(** [float(z)] on an int. *)
Definition of_int (z : Z) : res float :=
  match of_Z z with
  | S754_infinity _ =>
      Raise (Exn OverflowError "int too large to convert to float")
  | f => Return f
  end.

End PyFloat.

(** Reading a number out of a [str], as [float(s)] and [int(s)] do. *)
Module PyParse.
Local Open Scope Z_scope.

Definition code (c : ascii) : Z := Z.of_N (N_of_ascii c).

(** Whitespace among the code points below 256, as the two builtins
    strip it. *)
Definition is_space (c : ascii) : bool :=
  let n := code c in
  ((9 <=? n) && (n <=? 13)) || (n =? 32) || (n =? 133) || (n =? 160).

Definition is_digit (c : ascii) : bool :=
  let n := code c in (48 <=? n) && (n <=? 57).

Definition digit_val (c : ascii) : Z := code c - 48.

Definition lower (c : ascii) : ascii :=
  let n := code c in
  if (65 <=? n) && (n <=? 90) then ascii_of_N (Z.to_N (n + 32)) else c.

Fixpoint lstrip (l : list ascii) : list ascii :=
  match l with
  | c :: l' => if is_space c then lstrip l' else l
  | [] => []
  end.

Definition strip (l : list ascii) : list ascii :=
  rev (lstrip (rev (lstrip l))).

Definition next_is_digit (l : list ascii) : bool :=
  match l with c :: _ => is_digit c | [] => false end.

(** An underscore may stand between two digits, and nowhere else; the
    accepted ones are dropped. *)
Fixpoint drop_underscores (prev_digit : bool) (l : list ascii)
  : option (list ascii) :=
  match l with
  | [] => Some []
  | c :: l' =>
      if Ascii.eqb c "_"
      then if prev_digit && next_is_digit l'
           then drop_underscores false l' else None
      else option_map (cons c) (drop_underscores (is_digit c) l')
  end.

(** The longest prefix of digits and what follows it. *)
Fixpoint take_digits (l : list ascii) : list ascii * list ascii :=
  match l with
  | c :: l' =>
      if is_digit c
      then let '(d, r) := take_digits l' in (c :: d, r)
      else ([], l)
  | [] => ([], [])
  end.

Definition number (d : list ascii) : Z :=
  fold_left (fun acc c => acc * 10 + digit_val c) d 0.

(** An optional sign: [true] for a minus. *)
Definition take_sign (l : list ascii) : bool * list ascii :=
  match l with
  | c :: l' =>
      if Ascii.eqb c "-" then (true, l')
      else if Ascii.eqb c "+" then (false, l')
      else (false, l)
  | [] => (false, [])
  end.

(** The exponent part: absent, or [e] or [E], a sign and digits. *)
Definition exponent (l : list ascii) : option Z :=
  match l with
  | [] => Some 0
  | c :: l' =>
      if Ascii.eqb (lower c) "e"
      then let '(s, l'') := take_sign l' in
           match take_digits l'' with
           | ((_ :: _) as d, []) => Some (cond_Zopp s (number d))
           | _ => None
           end
      else None
  end.

Definition keyword (s : bool) (l : list ascii) : option spec_float :=
  let w := string_of_list_ascii (map lower l) in
  if String.eqb w "inf" || String.eqb w "infinity"
  then Some (S754_infinity s)
  else if String.eqb w "nan" then Some S754_nan
  else None.

Definition decimal (s : bool) (l : list ascii) : option spec_float :=
  let '(ip, r) := take_digits l in
  let '(fp, r) :=
    match r with
    | c :: r' => if Ascii.eqb c "." then take_digits r' else ([], r)
    | [] => ([], [])
    end in
  match (ip ++ fp)%list with
  | [] => None
  | m => match exponent r with
         | Some e =>
             Some (PyFloat.of_decimal s (number m)
                                      (e - Z.of_nat (length fp)))
         | None => None
         end
  end.

(** [float(s)]: [None] stands for the [ValueError]. *)
Definition parse_float (s : string) : option spec_float :=
  match drop_underscores false (strip (list_ascii_of_string s)) with
  | None => None
  | Some l =>
      let '(sg, l') := take_sign l in
      match decimal sg l' with
      | Some f => Some f
      | None => keyword sg l'
      end
  end.

(** The interpreter's limit on the digits of a decimal text read as an
    [int] ([sys.get_int_max_str_digits()], at its default). *)
Definition int_max_str_digits : nat := 4300.

(** [int(s)], base ten: [None] stands for the [ValueError].  The digits
    are counted with their leading zeros and without the sign, the
    underscores and the surrounding white space; a text with more than
    [int_max_str_digits] of them is refused with a [ValueError] too. *)
Definition parse_int (s : string) : option Z :=
  match drop_underscores false (strip (list_ascii_of_string s)) with
  | None => None
  | Some l =>
      let '(sg, l') := take_sign l in
      match take_digits l' with
      | ((_ :: _) as d, []) =>
          if (int_max_str_digits <? length d)%nat then None
          else Some (cond_Zopp sg (number d))
      | _ => None
      end
  end.

End PyParse.

(** [float(v)]. *)
Definition py_float (v : pyval) : res spec_float :=
  match v with
  | PBool b => Return (PyFloat.of_Z (if b then 1 else 0))
  | PInt z => PyFloat.of_int z
  | PFloat f => Return f
  | PStr s =>
      match PyParse.parse_float s with
      | Some f => Return f
      | None => Raise (Exn ValueError "could not convert string to float")
      end
  | _ => Raise (Exn TypeError
                    "float() argument must be a string or a real number")
  end.

(** [int(v)]. *)
Definition py_int (v : pyval) : res Z :=
  match v with
  | PBool b => Return (if b then 1 else 0)%Z
  | PInt z => Return z
  | PFloat f => PyFloat.trunc f
  | PStr s =>
      match PyParse.parse_int s with
      | Some z => Return z
      | None => Raise (Exn ValueError "invalid literal for int()")
      end
  | _ => Raise (Exn TypeError
                    "int() argument must be a string or a real number")
  end.

(** [bool(v)]. *)
Definition truthy (v : pyval) : bool :=
  match v with
  | PNone => false
  | PBool b => b
  | PInt z => negb (z =? 0)%Z
  | PFloat f => PyFloat.truthy f
  | PStr s => negb (String.eqb s "")
  | PList l => match l with [] => false | _ => true end
  | PDict d => match d with [] => false | _ => true end
  end.

(** [v == n] for an int [n]: numbers compare by value, across types. *)
Definition py_eq_int (v : pyval) (n : Z) : bool :=
  match v with
  | PBool b => ((if b then 1 else 0) =? n)%Z
  | PInt z => (z =? n)%Z
  | PFloat f =>
      match PyFloat.to_Z_exact f with
      | Some z => (z =? n)%Z
      | None => false
      end
  | _ => false
  end.

(** [v == s] for a str [s]. *)
Definition py_eq_str (v : pyval) (s : string) : bool :=
  match v with
  | PStr s' => String.eqb s' s
  | _ => false
  end.

(** [x / n] for a positive int literal [n]. *)
Definition py_truediv (x : pyval) (n : positive) : res pyval :=
  let int_div (a : Z) : res pyval :=
    let q := match a with
             | Z0 => S754_zero false
             | Zpos p => PyFloat.of_ratio false p n
             | Zneg p => PyFloat.of_ratio true p n
             end in
    match q with
    | S754_infinity _ =>
        Raise (Exn OverflowError
                   "integer division result too large for a float")
    | _ => Return (PFloat q)
    end in
  match x with
  | PFloat f =>
      d <- PyFloat.of_int (Zpos n) ;; Return (PFloat (PyFloat.div f d))
  | PInt a => int_div a
  | PBool b => int_div (if b then 1 else 0)%Z
  | _ => Raise (Exn TypeError "unsupported operand type(s) for /")
  end.

(** ** Sending the request, [_make_request] lines 65-105 *)

(** What [requests.get] hands back: the status, the body, the headers and
    the outcome of [response.json()]. *)
Record Response : Type := {
  status_code : Z;
  text : string;
  headers : list (string * string);
  json : res pyval
}.

(** The outcome of [requests.get(url, headers=headers)]. *)
Inductive get_outcome : Type :=
| GetReturns (r : Response)
| GetRaises (e : exn).

(** The network: an outcome for every URL and header set. *)
Definition transport : Type :=
  string -> list (string * string) -> get_outcome.

(** What the scripts write on standard output. *)
Inductive event : Type :=
| PrintError (status : Z)                       (* "Error: ..." *)
| PrintHeaders (h : list (string * string))     (* "Headers: ..." *)
| PrintResponse (body : string)                 (* "Response: ..." *)
| PrintRequestFailed (msg : string)             (* "Request failed: ..." *)
| PrintJson (v : pyval).                        (* print(json.dumps(v)) *)

(** Lines 66-72 and 84. *)
Definition request_headers (self : AisweiSolarAPI) (endpoint : string)
  : list (string * string) :=
  [ ("User-Agent", "app 1.0");
    ("Content-Type", content_type);
    ("Accept", accept);
    ("X-Ca-Signature-Headers", "X-Ca-Key");
    ("X-Ca-Key", app_key self);
    ("X-Ca-Signature", signature self endpoint) ].

(** [dict(response.headers)] as a Python value. *)
Definition headers_value (h : list (string * string)) : pyval :=
  PDict (map (fun kv => (fst kv, PStr (snd kv))) h).

(** The body of [_make_request]: what is printed, and what is returned or
    raised. *)
Definition _make_request (self : AisweiSolarAPI) (endpoint : string)
  (get : transport) : list event * res pyval :=
  match get (url self endpoint) (request_headers self endpoint) with
  | GetReturns response =>
      if (status_code response =? 200)%Z
      then match json response with
           | Return v => ([], Return v)
           | Raise _ =>
               ([], Return (PDict
                  [ ("error", PStr "Failed to parse JSON response");
                    ("status", PInt (status_code response)) ]))
           end
      else ([ PrintError (status_code response);
              PrintHeaders (headers response);
              PrintResponse (text response) ],
            Return (PDict
              [ ("error", PStr (text response));
                ("status", PInt (status_code response));
                ("headers", headers_value (headers response)) ]))
  | GetRaises e =>
      match exn_cls e with
      | RequestException =>
          ([ PrintRequestFailed (exn_str e) ],
           Return (PDict [ ("error", PStr (exn_str e)) ]))
      | _ => ([], Raise e)
      end
  end.

(** ** The operations, lines 107-261 *)

(** The calendar date of [datetime.now()]. *)
Record date : Type := { year : Z; month : Z; day : Z }.

Definition digit_char (n : Z) : ascii :=
  ascii_of_N (Z.to_N (48 + n mod 10)).

(** [n] in decimal on at least [width] digits, zero padded. *)
Fixpoint zero_padded (width : nat) (n : Z) : string :=
  match width with
  | O => EmptyString
  | S w => zero_padded w (n / 10) ++ String (digit_char n) EmptyString
  end.

(** [strftime("%Y-%m-%d")] for a year of four digits. *)
Definition strftime_Y_m_d (d : date) : string :=
  zero_padded 4 (year d) ++ "-" ++ zero_padded 2 (month d)
                         ++ "-" ++ zero_padded 2 (day d).

(** One constructor per method of the class that calls the API. *)
Inductive operation : Type :=
| getPlanListPro
| getPlantOverviewPro
| getPlantOutputPro
| getPlantEventPro
| getDeviceListPro
| getLocationPro
| getLastTsDataPro
| getInverterDataPagePro
| getInverterETodayPro
| getInverterHisErrorPagePro
| getInverterCurrentErrorPro
| getInverterOverviewPro
| getInverterRecoverStatusPro
| createstationPro.

Definition operations : list operation :=
  [ getPlanListPro; getPlantOverviewPro; getPlantOutputPro;
    getPlantEventPro; getDeviceListPro; getLocationPro; getLastTsDataPro;
    getInverterDataPagePro; getInverterETodayPro;
    getInverterHisErrorPagePro; getInverterCurrentErrorPro;
    getInverterOverviewPro; getInverterRecoverStatusPro;
    createstationPro ].

Definition operation_name (op : operation) : string :=
  match op with
  | getPlanListPro => "getPlanListPro"
  | getPlantOverviewPro => "getPlantOverviewPro"
  | getPlantOutputPro => "getPlantOutputPro"
  | getPlantEventPro => "getPlantEventPro"
  | getDeviceListPro => "getDeviceListPro"
  | getLocationPro => "getLocationPro"
  | getLastTsDataPro => "getLastTsDataPro"
  | getInverterDataPagePro => "getInverterDataPagePro"
  | getInverterETodayPro => "getInverterETodayPro"
  | getInverterHisErrorPagePro => "getInverterHisErrorPagePro"
  | getInverterCurrentErrorPro => "getInverterCurrentErrorPro"
  | getInverterOverviewPro => "getInverterOverviewPro"
  | getInverterRecoverStatusPro => "getInverterRecoverStatusPro"
  | createstationPro => "createstationPro"
  end.

(** The value of the method's local variable [endpoint], given today's
    date. *)
Definition operation_endpoint (op : operation) (today : date) : string :=
  match op with
  | getPlanListPro => "/pro/getPlanListPro"
  | getPlantOverviewPro => "/pro/getPlantOverviewPro"
  | getPlantOutputPro =>
      "/pro/getPlantOutputPro?period=bydays&date=" ++ strftime_Y_m_d today
  | getPlantEventPro => "/pro/getPlantEventPro"
  | getDeviceListPro => "/pro/getDeviceListPro"
  | getLocationPro => "/pro/getLocationPro"
  | getLastTsDataPro => "/pro/getLastTsDataPro"
  | getInverterDataPagePro => "/pro/getInverterDataPagePro"
  | getInverterETodayPro =>
      "/pro/getInverterETodayPro?date=" ++ strftime_Y_m_d today
  | getInverterHisErrorPagePro => "/pro/getInverterHisErrorPagePro"
  | getInverterCurrentErrorPro => "/pro/getInverterCurrentErrorPro"
  | getInverterOverviewPro => "/pro/getInverterOverviewPro"
  | getInverterRecoverStatusPro => "/pro/getInverterRecoverStatusPro"
  | createstationPro => "/pro/createstationPro"
  end.

(** The path of an endpoint: what stands before the first question
    mark. *)
Definition path_of (endpoint : string) : string :=
  hd EmptyString (PyStr.split "?" endpoint).

(** The parameters an endpoint carries: the components of what stands
    after the first question mark. *)
Definition params_of (endpoint : string) : list string :=
  match PyStr.split "?" endpoint with
  | _ :: q :: _ => PyStr.split "&" q
  | _ => []
  end.

(** Calling the method. *)
Definition call (op : operation) (self : AisweiSolarAPI) (today : date)
  (get : transport) : list event * res pyval :=
  _make_request self (operation_endpoint op today) get.

(** A read operation is one named [get...]; the other one creates. *)
Definition is_read (op : operation) : bool :=
  String.prefix "get" (operation_name op).

Definition is_create (op : operation) : bool :=
  String.prefix "create" (operation_name op).

(** Does the method write parameters of its own after the path? *)
Definition has_extra_params (op : operation) (today : date) : bool :=
  PyStr.contains "?" (operation_endpoint op today).

(** ** The normaliser, [openhab_solplanet.py] *)

(** [is_api_success], lines 20-24.  The [and] chain stops at the first
    false operand. *)
Definition is_api_success (response : pyval) : res bool :=
  status <- py_get response "status" PNone ;;
  if negb (py_eq_int status 200) then Return false else
  info <- py_get response "info" PNone ;;
  if negb (py_eq_str info "success") then Return false else
  match response with
  | PDict d => Return (PyDict.mem "data" d)
  | _ => Raise (Exn TypeError "argument is not iterable")
  end.

(** [safe_float], lines 39-43. *)
Definition safe_float (value default : pyval) : res pyval :=
  catching_value_type
    (match value with
     | PNone => Return default
     | _ => f <- py_float value ;; Return (PFloat f)
     end)
    default.

(** [safe_int], lines 45-49. *)
Definition safe_int (value default : pyval) : res pyval :=
  catching_value_type
    (match value with
     | PNone => Return default
     | _ => z <- py_int value ;; Return (PInt z)
     end)
    default.

(** The numeric entries of the returned dict after ["pac"], lines 64-139,
    in the order of the source: the key, which is also the raw field read,
    and the divisor applied, if any. *)
Definition numeric_fields : list (string * option positive) :=
  [ ("prc", None); ("sac", None); ("pf", Some 100);
    ("hto", None); ("etd", Some 10); ("eto", Some 10);
    ("v1", Some 10); ("v2", Some 10); ("v3", Some 10);
    ("i1", Some 100); ("i2", Some 100); ("i3", Some 100);
    ("s1", Some 10); ("s2", Some 10); ("s3", Some 10);
    ("cf", Some 10); ("tu", Some 10); ("tv", Some 10); ("tw", Some 10);
    ("cb", Some 10);
    ("bv", Some 10);
    ("va1", Some 10); ("va2", Some 10); ("va3", Some 10);
    ("ia1", Some 10); ("ia2", Some 10); ("ia3", Some 10);
    ("fac", Some 100);
    ("er", None); ("wn0", None);
    ("bat0", None); ("bat1", Some 10); ("bat2", Some 10); ("bat3", None);
    ("bat4", None); ("bat5", None); ("bat6", Some 100); ("bat7", Some 10);
    ("bat8", None); ("bat9", Some 10); ("bat10", None); ("bat11", None);
    ("bat12", Some 10); ("bat13", Some 10); ("bat14", None);
    ("bat15", Some 10); ("bat16", Some 10); ("bat17", Some 10);
    ("bat18", Some 10);
    ("meterPow", None); ("meterIed", None); ("meterOed", None);
    ("meterIet", None); ("meterOet", None);
    ("powerRatio", None); ("csq", None) ]%positive.

(** [safe_float(device.get(key, 0))], divided when the entry says so. *)
Definition numeric_entry (device : pyval) (key : string)
  (divisor : option positive) : res pyval :=
  raw <- py_get device key (PInt 0) ;;
  x <- safe_float raw (PInt 0) ;;
  match divisor with
  | Some n => py_truediv x n
  | None => Return x
  end.

(** The entries are evaluated in order; the first exception escapes. *)
Fixpoint numeric_entries (device : pyval)
  (fields : list (string * option positive)) : res dict :=
  match fields with
  | [] => Return []
  | (key, divisor) :: fields' =>
      v <- numeric_entry device key divisor ;;
      rest <- numeric_entries device fields' ;;
      Return ((key, v) :: rest)
  end.

(** Line 36. *)
Definition first_device (devices : pyval) : res pyval :=
  match devices with
  | PList (d :: _) => Return d
  | PList [] => Raise (Exn IndexError "list index out of range")
  | _ => Return devices
  end.

(** [extract_live_data], lines 26-140. *)
Definition extract_live_data (api_response : pyval) : res dict :=
  ok <- is_api_success api_response ;;
  if negb ok then Return [] else
  devices <- py_get api_response "data" (PList []) ;;
  if negb (truthy devices) then Return [] else
  device <- first_device devices ;;
  raw_pac <- py_get device "pac" (PInt 0) ;;
  pac <- safe_float raw_pac (PInt 0) ;;
  power_kw <- (if truthy pac then py_truediv pac 1000 else Return (PInt 0)) ;;
  device_name <- py_get device "sn" (PStr "Unknown") ;;
  timestamp <- py_get device "tim" (PStr "") ;;
  raw_state <- py_get device "currentState" PNone ;;
  state <- safe_int raw_state (PInt 0) ;;
  rest <- numeric_entries device numeric_fields ;;
  Return ([ ("power", power_kw);
            ("device_name", device_name);
            ("timestamp", timestamp);
            ("status",
             PStr (if py_eq_int state 1 then "Normal" else "Offline"));
            ("pac", pac) ] ++ rest)%list.

(** The default output of [main], lines 154-209. *)
Definition default_output (now : string) : dict :=
  [ ("timestamp", PStr now);
    ("success", PBool false);
    ("power", PInt 0);
    ("device_name", PStr "Unknown");
    ("status", PStr "unknown");
    ("pac", PInt 0); ("prc", PInt 0); ("sac", PInt 0); ("pf", PInt 0);
    ("hto", PInt 0); ("etd", PInt 0); ("eto", PInt 0);
    ("v1", PInt 0); ("v2", PInt 0); ("v3", PInt 0);
    ("i1", PInt 0); ("i2", PInt 0); ("i3", PInt 0);
    ("s1", PInt 0); ("s2", PInt 0); ("s3", PInt 0);
    ("cf", PInt 0); ("tu", PInt 0); ("tv", PInt 0); ("tw", PInt 0);
    ("cb", PInt 0);
    ("bv", PInt 0);
    ("va1", PInt 0); ("va2", PInt 0); ("va3", PInt 0);
    ("ia1", PInt 0); ("ia2", PInt 0); ("ia3", PInt 0);
    ("fac", PInt 0);
    ("er", PInt 0); ("wn0", PInt 0);
    ("bat0", PInt 0); ("bat1", PInt 0); ("bat2", PInt 0); ("bat3", PInt 0);
    ("bat4", PInt 0); ("bat5", PInt 0); ("bat6", PInt 0); ("bat7", PInt 0);
    ("bat8", PInt 0); ("bat9", PInt 0); ("bat10", PInt 0);
    ("bat11", PInt 0); ("bat12", PInt 0); ("bat13", PInt 0);
    ("bat14", PInt 0); ("bat15", PInt 0); ("bat16", PInt 0);
    ("bat17", PInt 0); ("bat18", PInt 0);
    ("meterPow", PInt 0); ("meterIed", PInt 0); ("meterOed", PInt 0);
    ("meterIet", PInt 0); ("meterOet", PInt 0);
    ("powerRatio", PInt 0); ("csq", PInt 0) ].

(** Lines 214-217 of [main]: the output object, once the answer of
    [getLastTsDataPro] is there. *)
Definition build_output (now : string) (live_response : pyval) : res dict :=
  let output_data := default_output now in
  ok <- is_api_success live_response ;;
  if ok then
    live_data <- extract_live_data live_response ;;
    let output_data := PyDict.update output_data live_data in
    Return (PyDict.set "success" (PBool true) output_data)
  else Return output_data.

(** Lines 223-231: the object printed when an exception reaches the
    handler of [main]. *)
Definition error_data (e : exn) (now : string) : dict :=
  [ ("error", PStr (exn_str e));
    ("timestamp", PStr now);
    ("success", PBool false);
    ("power", PInt 0);
    ("etoday", PInt 0);
    ("etotal", PInt 0);
    ("status", PStr "error") ].

(** [main]: what is printed and the exit status.  [now] is the time read
    for the default output, [later] the time read in the handler. *)
Definition main (self : AisweiSolarAPI) (get : transport)
  (now later : string) : list event * Z :=
  let '(printed, answer) := _make_request self "/pro/getLastTsDataPro" get in
  match (live_response <- answer ;; build_output now live_response) with
  | Return output_data => (printed ++ [PrintJson (PDict output_data)], 0%Z)
  | Raise e => (printed ++ [PrintJson (PDict (error_data e later))], 1%Z)
  end%list.

(** ** The canonical endpoint in the words of the specification

    Append [apikey], [token] and [isnos] in this order, with a question
    mark if the endpoint has no query string yet and an ampersand
    otherwise; split off the query string, sort its components
    lexicographically as whole strings, and rejoin them with ampersands. *)

(** The text before the first [c], and the text after it if [c] occurs. *)
Fixpoint partition (c : ascii) (s : string) : string * option string :=
  match s with
  | EmptyString => (EmptyString, None)
  | String a s' =>
      if Ascii.eqb a c then (EmptyString, Some s')
      else let '(h, t) := partition c s' in (String a h, t)
  end.

Definition spec_canonical_endpoint (self : AisweiSolarAPI)
  (endpoint : string) : string :=
  let with_auth :=
    endpoint ++ (if PyStr.contains "?" endpoint then "&" else "?")
             ++ "apikey=" ++ api_key self
             ++ "&token=" ++ token self
             ++ "&isnos=" ++ sn self in
  match partition "?" with_auth with
  | (path, Some query) =>
      path ++ "?" ++ PyStr.join "&" (PyStr.sorted (PyStr.split "&" query))
  | (path, None) => path
  end.

(** [h.get(k)] on a header set. *)
Fixpoint header (k : string) (h : list (string * string)) : option string :=
  match h with
  | [] => None
  | (k', v) :: h' => if String.eqb k' k then Some v else header k h'
  end.

(** The outcomes of the HTTP exchange: a response, whatever its status,
    or a failure of the transport, which [requests] reports with an
    exception of class [RequestException]. *)
Definition http_outcome (o : get_outcome) : Prop :=
  match o with
  | GetReturns _ => True
  | GetRaises e => exn_cls e = RequestException
  end.

(** The shape [YYYY-MM-DD]: ten characters, digits but for the two
    dashes. *)
Definition is_Y_m_d (s : string) : bool :=
  match list_ascii_of_string s with
  | [y1; y2; y3; y4; a; m1; m2; b; d1; d2] =>
      forallb PyParse.is_digit [y1; y2; y3; y4; m1; m2; d1; d2]
      && Ascii.eqb a "-" && Ascii.eqb b "-"
  | _ => false
  end.

(** The keys of the record [extract_live_data] returns for a device. *)
Definition record_keys : list string :=
  ["power"; "device_name"; "timestamp"; "status"; "pac"]
    ++ map fst numeric_fields.

(** The values [float] converts without an [OverflowError]: every value
    but an int beyond the range of the floats. *)
Definition float_convertible (v : pyval) : bool :=
  match v with
  | PInt z => match PyFloat.of_Z z with
              | S754_infinity _ => false
              | _ => true
              end
  | _ => true
  end.

(** The values [int] converts without an [OverflowError]: every value but
    the two infinities. *)
Definition int_convertible (v : pyval) : bool :=
  match v with
  | PFloat (S754_infinity _) => false
  | _ => true
  end.

(** A device record whose numbers are all within range. *)
Definition numbers_in_range (device : dict) : bool :=
  forallb (fun k => float_convertible (PyDict.get device k (PInt 0)))
          ("pac" :: map fst numeric_fields)
  && int_convertible (PyDict.get device "currentState" PNone).

(** The response of the specification's example. *)
Definition example_response : pyval :=
  PDict [ ("status", PInt 200);
          ("info", PStr "success");
          ("data", PList [ PDict [ ("pac", PStr "1500");
                                   ("sn", PStr "X1");
                                   ("currentState", PStr "1") ] ]) ].

(** The record expected for the example: power 1.5, the device name,
    an empty timestamp, the status, [pac] 1500.0, and the float zero for
    every other field. *)
Definition example_record : dict :=
  ([ ("power", PFloat (PyFloat.of_decimal false 15 (-1)));
     ("device_name", PStr "X1");
     ("timestamp", PStr "");
     ("status", PStr "Normal");
     ("pac", PFloat (PyFloat.of_Z 1500)) ]
     ++ map (fun kd => (fst kd, PFloat (S754_zero false)))
            numeric_fields)%list.

(** A successful response whose device reports one raw field. *)
Definition response_with_field (key : string) (value : pyval) : pyval :=
  PDict [ ("status", PInt 200);
          ("info", PStr "success");
          ("data", PList [ PDict [ (key, value) ] ]) ].

(** The zero defaults the specification names: the number zero, and the
    texts [Unknown] and [unknown] of the identity and status fields. *)
Definition zero_default (v : pyval) : bool :=
  match v with
  | PInt z => (z =? 0)%Z
  | PFloat (S754_zero _) => true
  | PStr s => String.eqb s "Unknown" || String.eqb s "unknown"
  | _ => false
  end.

(** Every field of the record, the named ones apart, is at its zero
    default. *)
Definition at_zero_default_except (named : list string) (rec : dict)
  : bool :=
  forallb (fun kv => existsb (String.eqb (fst kv)) named
                     || zero_default (snd kv)) rec.

(** The status, power and device name the normaliser gives a successful
    response whose device has one raw field. *)
Definition field_for (out key : string) (value : pyval)
  : res (option pyval) :=
  rec <- extract_live_data (response_with_field key value) ;;
  Return (PyDict.lookup out rec).

Definition status_for (currentState : pyval) : res (option pyval) :=
  field_for "status" "currentState" currentState.

Definition power_for (pac : pyval) : res (option pyval) :=
  field_for "power" "pac" pac.

Definition device_name_for (key : string) (value : pyval)
  : res (option pyval) :=
  field_for "device_name" key value.

(** The divisors the normaliser applies. *)
Definition small_divisor (dv : option positive) : Prop :=
  dv = None \/ dv = Some 10%positive \/ dv = Some 100%positive
  \/ dv = Some 1000%positive.

(** The three authentication parameters as lines 55-57 write them after
    the separator. *)
Definition auth_query (self : AisweiSolarAPI) : string :=
  "apikey=" ++ api_key self ++ "&token=" ++ token self
            ++ "&isnos=" ++ sn self.

(** The same three parameters as a list of components. *)
Definition auth_params (self : AisweiSolarAPI) : list string :=
  ["apikey=" ++ api_key self; "token=" ++ token self; "isnos=" ++ sn self].

(** A value that holds neither a question mark nor an ampersand. *)
Definition plain (s : string) : bool :=
  negb (PyStr.contains "?" s) && negb (PyStr.contains "&" s).

(** Credentials whose API key, token and serial number are plain. *)
Definition plain_credentials (self : AisweiSolarAPI) : bool :=
  plain (api_key self) && plain (token self) && plain (sn self).

(** The keys of the object the handler of [main] prints. *)
Definition error_keys : list string :=
  ["error"; "timestamp"; "success"; "power"; "etoday"; "etotal"; "status"].

(** Is the event the printing of a JSON object? *)
Definition is_json_event (e : event) : bool :=
  match e with PrintJson _ => true | _ => false end.

(** [isinstance(v, dict)]. *)
Definition is_dict (v : pyval) : bool :=
  match v with PDict _ => true | _ => false end.

(** The message of the [AttributeError] raised by [v.get]. *)
Definition no_get_message (v : pyval) : string :=
  "'" ++ type_name v ++ "' object has no attribute 'get'".

(** The outcomes of the HTTP exchange after which [_make_request]
    returns an error object: a failure of the transport, a status other
    than 200, a body that does not parse. *)
Definition http_failure (o : get_outcome) : Prop :=
  match o with
  | GetRaises e => exn_cls e = RequestException
  | GetReturns r =>
      status_code r <> 200%Z \/ exists e, json r = Raise e
  end.

(** * Properties *)

(** ** Strings: membership, counting, splitting *)

Module PyStrFacts.
Import PyStr.

Lemma contains_false_count (c : ascii) (s : string) :
  contains c s = false <-> count c s = 0.
Proof.
  induction s as [|a s IH]; simpl; [tauto|].
  destruct (Ascii.eqb a c); simpl; [split; discriminate | exact IH].
Qed.

Lemma count_append (c : ascii) (s t : string) :
  count c (s ++ t) = count c s + count c t.
Proof.
  induction s as [|a s IH]; simpl; [reflexivity|].
  rewrite IH. apply Nat.add_assoc.
Qed.

Lemma append_assoc (s t u : string) : (s ++ t) ++ u = s ++ t ++ u.
Proof. induction s as [|a s IH]; simpl; [reflexivity | now rewrite IH]. Qed.

Lemma contains_append (c : ascii) (s t : string) :
  contains c (s ++ t) = contains c s || contains c t.
Proof.
  induction s as [|a s IH]; simpl; [reflexivity|].
  destruct (Ascii.eqb a c); simpl; [reflexivity | exact IH].
Qed.

Lemma split_not_nil (c : ascii) (s : string) : split c s <> [].
Proof.
  destruct s as [|a s]; simpl; [discriminate|].
  destruct (Ascii.eqb a c); [discriminate|].
  destruct (split c s); discriminate.
Qed.

(** A string without the separator is its own single component. *)
Lemma split_without (c : ascii) (s : string) :
  contains c s = false -> split c s = [s].
Proof.
  induction s as [|a s IH]; simpl; [reflexivity|].
  destruct (Ascii.eqb a c); [discriminate|].
  intros H. rewrite (IH H). reflexivity.
Qed.

(** The first separator ends the first component. *)
Lemma split_at_first (c : ascii) (a b : string) :
  contains c a = false ->
  split c (a ++ String c b) = a :: split c b.
Proof.
  induction a as [|x a IH]; simpl.
  - intros _. rewrite Ascii.eqb_refl. reflexivity.
  - destruct (Ascii.eqb x c); [discriminate|].
    intros H. rewrite (IH H). reflexivity.
Qed.

(** The number of components is one more than the number of
    separators. *)
Lemma length_split (c : ascii) (s : string) :
  length (split c s) = S (count c s).
Proof.
  induction s as [|a s IH]; simpl; [reflexivity|].
  destruct (Ascii.eqb a c); simpl.
  - now rewrite IH.
  - destruct (split c s) as [|h t] eqn:E; simpl in *; [discriminate|].
    exact IH.
Qed.

(** Joining the components gives the string back. *)
Lemma join_split (c : ascii) (s : string) :
  join (String c EmptyString) (split c s) = s.
Proof.
  unfold join.
  induction s as [|a s IH]; simpl; [reflexivity|].
  destruct (Ascii.eqb_spec a c) as [->|Hne].
  - pose proof (split_not_nil c s) as Hn.
    destruct (split c s) as [|h t]; [contradiction|].
    simpl in *. now rewrite IH.
  - pose proof (split_not_nil c s) as Hn.
    destruct (split c s) as [|h t]; [contradiction|].
    destruct t; simpl in *; now rewrite <- IH.
Qed.

(** A string in which the character occurs is cut at its first
    occurrence. *)
Lemma cut_at_first (c : ascii) (s : string) :
  1 <= count c s ->
  exists a b, s = a ++ String c b /\ contains c a = false
              /\ count c s = S (count c b).
Proof.
  induction s as [|x s IH]; simpl; [lia|].
  destruct (Ascii.eqb_spec x c) as [->|Hne]; simpl.
  - intros _. exists EmptyString, s. repeat split.
  - intros H. destruct (IH H) as (a & b & -> & Ha & Hc).
    exists (String x a), b. simpl.
    destruct (Ascii.eqb_spec x c); [contradiction|]. repeat split; auto.
Qed.

Lemma partition_at_first (c : ascii) (a b : string) :
  contains c a = false ->
  partition c (a ++ String c b) = (a, Some b).
Proof.
  induction a as [|x a IH]; simpl.
  - intros _. now rewrite Ascii.eqb_refl.
  - destruct (Ascii.eqb x c); [discriminate|].
    intros H. now rewrite (IH H).
Qed.

End PyStrFacts.

(** ** Strings: the order and [sorted] *)

Module SortedFacts.
Import PyStr.

Lemma le_trans (a b c : string) : le a b -> le b c -> le a c.
Proof.
  unfold le, String.leb. revert b c.
  induction a as [|x a IH]; intros [|y b] [|z c]; simpl;
    try reflexivity; try discriminate.
  unfold Ascii.compare.
  destruct (N.compare_spec (N_of_ascii x) (N_of_ascii y)) as [E1|L1|G1];
    destruct (N.compare_spec (N_of_ascii y) (N_of_ascii z)) as [E2|L2|G2];
    destruct (N.compare_spec (N_of_ascii x) (N_of_ascii z)) as [E3|L3|G3];
    try reflexivity; try discriminate; try (exfalso; lia).
  apply IH.
Qed.

Lemma le_total (a b : string) : le a b \/ le b a.
Proof. apply String.leb_total. Qed.

Lemma le_antisym (a b : string) : le a b -> le b a -> a = b.
Proof. apply String.leb_antisym. Qed.

Lemma le_refl (a : string) : le a a.
Proof. destruct (le_total a a); assumption. Qed.

Lemma not_le (a b : string) : String.leb a b = false -> le b a.
Proof.
  intros H. destruct (le_total a b) as [H'|H']; [|exact H'].
  unfold le in H'. congruence.
Qed.

Lemma insert_perm (x : string) (l : list string) :
  Permutation (x :: l) (insert x l).
Proof.
  induction l as [|y l IH]; simpl; [reflexivity|].
  destruct (String.leb x y); [reflexivity|].
  rewrite perm_swap. now constructor.
Qed.

Lemma sorted_perm (l : list string) : Permutation l (sorted l).
Proof.
  induction l as [|x l IH]; simpl; [constructor|].
  rewrite <- insert_perm. now constructor.
Qed.

Lemma insert_hd (x y : string) (l : list string) :
  le y x -> HdRel le y l -> HdRel le y (insert x l).
Proof.
  intros Hyx Hl. destruct l as [|z l]; simpl; [now constructor|].
  destruct (String.leb x z); constructor; [exact Hyx|].
  now inversion Hl.
Qed.

Lemma insert_sorted (x : string) (l : list string) :
  Sorted le l -> Sorted le (insert x l).
Proof.
  induction 1 as [|y l Hs IH Hh]; simpl; [repeat constructor|].
  destruct (String.leb x y) eqn:E.
  - constructor; [now constructor | now constructor].
  - constructor; [exact IH|].
    apply insert_hd; [now apply not_le | exact Hh].
Qed.

(** [sorted] returns an ascending list. *)
Lemma sorted_Sorted (l : list string) : Sorted le (sorted l).
Proof.
  induction l as [|x l IH]; simpl; [constructor|].
  now apply insert_sorted.
Qed.

Lemma Sorted_all_le (x : string) (l : list string) :
  Sorted le (x :: l) -> forall y, In y l -> le x y.
Proof.
  intros H. apply Sorted_StronglySorted in H.
  - inversion H as [|? ? _ Hall]; subst.
    intros y Hy. rewrite Forall_forall in Hall. now apply Hall.
  - intros a b c. apply le_trans.
Qed.

(** An ascending arrangement of given strings is unique: whatever
    algorithm sorts them returns this list. *)
Lemma sorted_unique (l1 l2 : list string) :
  Sorted le l1 -> Sorted le l2 -> Permutation l1 l2 -> l1 = l2.
Proof.
  revert l2. induction l1 as [|x l1 IH]; intros l2 S1 S2 P.
  - apply Permutation_nil in P. now subst.
  - destruct l2 as [|y l2].
    + symmetry in P. apply Permutation_nil in P. discriminate.
    + assert (x = y) as ->.
      { apply le_antisym.
        - assert (In y (x :: l1)) as Hy
              by (apply (Permutation_in _ (Permutation_sym P)); now left).
          destruct Hy as [->|Hy]; [apply le_refl|].
          now apply (Sorted_all_le x l1).
        - assert (In x (y :: l2)) as Hx
              by (apply (Permutation_in _ P); now left).
          destruct Hx as [->|Hx]; [apply le_refl|].
          now apply (Sorted_all_le y l2). }
      f_equal. apply IH.
      * now inversion S1.
      * now inversion S2.
      * now apply Permutation_cons_inv in P.
Qed.

(** Python's [sorted] is specified by: ascending, same elements. *)
Lemma sorted_spec (l l' : list string) :
  Sorted le l' -> Permutation l l' -> sorted l = l'.
Proof.
  intros S P. apply sorted_unique.
  - apply sorted_Sorted.
  - exact S.
  - now rewrite <- (sorted_perm l).
Qed.

End SortedFacts.

(** ** The request builder *)

Module RequestFacts.
Import PyStr PyStrFacts SortedFacts.

Lemma count_add_auth_params (self : AisweiSolarAPI) (endpoint : string) :
  count "?" (add_auth_params self endpoint)
  = count "?" endpoint + (if contains "?" endpoint then 0 else 1)
    + count "?" (api_key self) + count "?" (token self)
    + count "?" (sn self).
Proof.
  unfold add_auth_params. rewrite !count_append.
  destruct (contains "?" endpoint); simpl; lia.
Qed.

(** After the append there is always a question mark. *)
Lemma add_auth_params_has_query (self : AisweiSolarAPI)
  (endpoint : string) :
  1 <= count "?" (add_auth_params self endpoint).
Proof.
  rewrite count_add_auth_params.
  destruct (contains "?" endpoint) eqn:E; [|lia].
  destruct (count "?" endpoint) eqn:C; [|lia].
  apply contains_false_count in C. congruence.
Qed.

(** The sort step on a string cut at its first question mark: only the
    first component of the remainder is used. *)
Lemma sort_params_cut (a q : string) :
  contains "?" a = false ->
  sort_params (a ++ String "?" q)
  = a ++ "?" ++ join "&" (sorted (split "&" (hd EmptyString (split "?" q)))).
Proof.
  intros Ha. unfold sort_params. rewrite (split_at_first _ _ _ Ha).
  pose proof (split_not_nil "?" q) as Hn.
  destruct (split "?" q) as [|h t]; [contradiction|]. reflexivity.
Qed.

Lemma sort_params_without (e : string) :
  contains "?" e = false -> sort_params e = e.
Proof.
  intros H. unfold sort_params. now rewrite (split_without _ _ H).
Qed.

(** The transport is asked once, for [url] with [request_headers]. *)
Lemma _make_request_sends (self : AisweiSolarAPI) (endpoint : string)
  (get get' : transport) :
  get (url self endpoint) (request_headers self endpoint)
  = get' (url self endpoint) (request_headers self endpoint) ->
  _make_request self endpoint get = _make_request self endpoint get'.
Proof. unfold _make_request. now intros ->. Qed.

End RequestFacts.

Import PyStr PyStrFacts SortedFacts RequestFacts.

(** C1, as amended.  For every endpoint and every credentials the string
    appended to the base URL and the last line of the signed string are
    the same canonical endpoint, and the transport is asked for exactly
    that URL.  When the endpoint holds at most one question mark and the
    API key, token and serial number hold none, the canonical endpoint is
    the path, a question mark, and the components of the whole query
    string (the endpoint's own, then apikey, token and isnos) in ascending
    order of the whole components, joined by ampersands: what the
    specification describes. *)
Theorem C1_sent_endpoint_is_signed_endpoint :
  forall (self : AisweiSolarAPI) (endpoint : string),
    url self endpoint = base_url self ++ canonical_endpoint self endpoint
    /\ string_to_sign self endpoint
       = "GET" ++ LF ++ "application/json" ++ LF ++ LF
               ++ "application/json; charset=UTF-8" ++ LF ++ LF
               ++ "X-Ca-Key:" ++ app_key self ++ LF
               ++ canonical_endpoint self endpoint
    /\ (forall get : transport,
           _make_request self endpoint get
           = _make_request self endpoint
               (fun _ _ => get (base_url self
                                  ++ canonical_endpoint self endpoint)
                               (request_headers self endpoint)))
    /\ (count "?" endpoint <= 1 ->
        count "?" (api_key self ++ token self ++ sn self) = 0 ->
        canonical_endpoint self endpoint
        = spec_canonical_endpoint self endpoint
        /\ exists path query components,
            add_auth_params self endpoint = path ++ "?" ++ query
            /\ contains "?" path = false
            /\ contains "?" query = false
            /\ Sorted PyStr.le components
            /\ Permutation (split "&" query) components
            /\ canonical_endpoint self endpoint
               = path ++ "?" ++ join "&" components).
Proof.
  intros self endpoint. split; [reflexivity|]. split; [reflexivity|].
  split; [intros get; now apply _make_request_sends|].
  intros Hend Hcred.
  assert (count "?" (add_auth_params self endpoint) = 1) as Hone.
  { rewrite count_add_auth_params. rewrite !count_append in Hcred.
    destruct (contains "?" endpoint) eqn:E.
    - destruct (count "?" endpoint) eqn:C; [|lia].
      apply contains_false_count in C. congruence.
    - apply contains_false_count in E. lia. }
  destruct (cut_at_first "?" (add_auth_params self endpoint))
    as (path & query & Heq & Hpath & Hcnt); [lia|].
  assert (contains "?" query = false) as Hquery
      by (apply contains_false_count; lia).
  assert (canonical_endpoint self endpoint
          = path ++ "?" ++ join "&" (sorted (split "&" query))) as Hcanon.
  { unfold canonical_endpoint. rewrite Heq.
    rewrite (sort_params_cut _ _ Hpath).
    now rewrite (split_without _ _ Hquery). }
  split.
  - rewrite Hcanon. unfold spec_canonical_endpoint.
    replace (endpoint ++ (if contains "?" endpoint then "&" else "?")
                      ++ "apikey=" ++ api_key self ++ "&token=" ++ token self
                      ++ "&isnos=" ++ sn self)
      with (add_auth_params self endpoint).
    + rewrite Heq. now rewrite (partition_at_first _ _ _ Hpath).
    + unfold add_auth_params.
      rewrite !append_assoc. reflexivity.
  - exists path, query, (sorted (split "&" query)).
    repeat split; auto.
    + apply sorted_Sorted.
    + apply sorted_perm.
Qed.
Lemma C1_sent_endpoint_is_signed_endpoint_witness :
  count "?" "/pro/getInverterETodayPro?date=2026-03-07" <= 1
  /\ count "?" (api_key (init "K" "S" "A" "T" "N")
                 ++ token (init "K" "S" "A" "T" "N")
                 ++ sn (init "K" "S" "A" "T" "N")) = 0
  /\ canonical_endpoint (init "K" "S" "A" "T" "N")
                        "/pro/getInverterETodayPro?date=2026-03-07"
     = spec_canonical_endpoint (init "K" "S" "A" "T" "N")
                        "/pro/getInverterETodayPro?date=2026-03-07".
Proof.
  assert (count "?" "/pro/getInverterETodayPro?date=2026-03-07" <= 1) as H1
      by (vm_compute; lia).
  assert (count "?" (api_key (init "K" "S" "A" "T" "N")
                       ++ token (init "K" "S" "A" "T" "N")
                       ++ sn (init "K" "S" "A" "T" "N")) = 0) as H2
      by reflexivity.
  split; [exact H1|]. split; [exact H2|].
  exact (proj1 (proj2 (proj2 (proj2
           (C1_sent_endpoint_is_signed_endpoint
              (init "K" "S" "A" "T" "N")
              "/pro/getInverterETodayPro?date=2026-03-07"))) H1 H2)).
Defined.

(** C1 as stated fails when a credential holds a question mark: with the
    serial number [a?b] the parameter [isnos=a?b] is appended, but the
    endpoint sent and signed carries [isnos=a]; sorting and rejoining all
    components of the query string would give [isnos=a?b]. *)
Lemma C1_counterexample :
  canonical_endpoint (init "K" "S" "A" "T" "a?b") "/pro/x"
  = "/pro/x?apikey=A&isnos=a&token=T"
  /\ spec_canonical_endpoint (init "K" "S" "A" "T" "a?b") "/pro/x"
     = "/pro/x?apikey=A&isnos=a?b&token=T"
  /\ canonical_endpoint (init "K" "S" "A" "T" "a?b") "/pro/x"
     <> spec_canonical_endpoint (init "K" "S" "A" "T" "a?b") "/pro/x".
Proof.
  split; [reflexivity|]. split; [reflexivity|]. vm_compute. discriminate.
Qed.

(** The sort step on a string with two question marks or more. *)
Lemma sort_params_two_marks (a b c : string) :
  contains "?" a = false -> contains "?" b = false ->
  sort_params (a ++ "?" ++ b ++ "?" ++ c)
  = a ++ "?" ++ join "&" (sorted (split "&" b)).
Proof.
  intros Ha Hb.
  change (a ++ "?" ++ b ++ "?" ++ c) with (a ++ String "?" (b ++ String "?" c)).
  rewrite (sort_params_cut _ _ Ha).
  now rewrite (split_at_first _ _ _ Hb).
Qed.

(** C10.  When the endpoint holds two question marks or more, or one of
    the appended credentials holds a question mark, the endpoint with its
    appended parameters reads [a?b?c] with no question mark in [a] and
    [b], and the canonical endpoint is [a], a question mark and the sorted
    components of [b], joined by ampersands: the components kept are a
    rearrangement of those of [b], in ascending order, and nothing of [c]
    is kept, whatever [c] is. *)
Theorem C10_text_after_second_question_mark_is_dropped :
  forall (self : AisweiSolarAPI) (endpoint : string),
    2 <= count "?" endpoint
    \/ 1 <= count "?" (api_key self ++ token self ++ sn self) ->
    exists a b c components,
      add_auth_params self endpoint = a ++ "?" ++ b ++ "?" ++ c
      /\ contains "?" a = false
      /\ contains "?" b = false
      /\ components = sorted (split "&" b)
      /\ Sorted PyStr.le components
      /\ Permutation (split "&" b) components
      /\ canonical_endpoint self endpoint
         = a ++ "?" ++ join "&" components
      /\ forall c', sort_params (a ++ "?" ++ b ++ "?" ++ c')
                    = canonical_endpoint self endpoint.
Proof.
  intros self endpoint H.
  assert (2 <= count "?" (add_auth_params self endpoint)) as Htwo.
  { rewrite count_add_auth_params. rewrite !count_append in H.
    destruct H as [H|H]; [lia|].
    destruct (contains "?" endpoint) eqn:E; [|lia].
    destruct (count "?" endpoint) eqn:C; [|lia].
    apply contains_false_count in C. congruence. }
  destruct (cut_at_first "?" (add_auth_params self endpoint))
    as (a & q & Heq & Ha & Hq); [lia|].
  destruct (cut_at_first "?" q) as (b & c & Heq' & Hb & _); [lia|].
  exists a, b, c, (sorted (split "&" b)). subst q.
  assert (canonical_endpoint self endpoint
          = a ++ "?" ++ join "&" (sorted (split "&" b))) as Hc.
  { unfold canonical_endpoint. rewrite Heq.
    now apply sort_params_two_marks. }
  split; [exact Heq|]. split; [exact Ha|]. split; [exact Hb|].
  split; [reflexivity|].
  split; [apply sorted_Sorted|].
  split; [apply sorted_perm|].
  split; [exact Hc|].
  intros c'. rewrite Hc. now apply sort_params_two_marks.
Qed.

Lemma C10_text_after_second_question_mark_is_dropped_witness :
  exists a b c components,
    add_auth_params (init "K" "S" "A" "T" "N") "/pro/x?b=2&a=1?z=9"
    = a ++ "?" ++ b ++ "?" ++ c
    /\ contains "?" a = false
    /\ contains "?" b = false
    /\ components = sorted (split "&" b)
    /\ Sorted PyStr.le components
    /\ Permutation (split "&" b) components
    /\ canonical_endpoint (init "K" "S" "A" "T" "N") "/pro/x?b=2&a=1?z=9"
       = a ++ "?" ++ join "&" components
    /\ forall c', sort_params (a ++ "?" ++ b ++ "?" ++ c')
                  = canonical_endpoint (init "K" "S" "A" "T" "N")
                                       "/pro/x?b=2&a=1?z=9".
Proof.
  apply (C10_text_after_second_question_mark_is_dropped
           (init "K" "S" "A" "T" "N") "/pro/x?b=2&a=1?z=9").
  left. vm_compute. lia.
Defined.

(** C2.  The signed string is [GET], the Accept value, an empty line, the
    Content-Type value, an empty line, [X-Ca-Key:] with the app key, and
    the canonical endpoint, separated by newlines; the [X-Ca-Signature]
    header is the base64 text of the HMAC-SHA256 of the UTF-8 bytes of this
    string under the UTF-8 bytes of the app secret; the signature is a
    function of the app key, the app secret and the canonical endpoint
    alone.  With app key [K], secret [S] and endpoint [/pro/test] the
    signed string and the signature are the ones displayed. *)
Theorem C2_signature_of_the_signing_string :
  forall (self : AisweiSolarAPI) (endpoint : string),
    string_to_sign self endpoint
    = "GET" ++ LF ++ "application/json" ++ LF
            ++ LF ++ "application/json; charset=UTF-8" ++ LF
            ++ LF ++ "X-Ca-Key:" ++ app_key self ++ LF
            ++ canonical_endpoint self endpoint
    /\ header "X-Ca-Signature" (request_headers self endpoint)
       = Some (Bytes.decode_ascii
                 (Base64.b64encode
                    (HMAC.digest
                       (Bytes.encode_utf8 (app_secret self))
                       (Bytes.encode_utf8 (string_to_sign self endpoint)))))
    /\ header "X-Ca-Key" (request_headers self endpoint)
       = Some (app_key self)
    /\ (forall (self' : AisweiSolarAPI) (endpoint' : string),
           app_key self' = app_key self ->
           app_secret self' = app_secret self ->
           canonical_endpoint self' endpoint'
           = canonical_endpoint self endpoint ->
           header "X-Ca-Signature" (request_headers self' endpoint')
           = header "X-Ca-Signature" (request_headers self endpoint))
    /\ string_to_sign (init "K" "S" "A" "T" "N") "/pro/test"
       = "GET" ++ LF ++ "application/json" ++ LF
               ++ LF ++ "application/json; charset=UTF-8" ++ LF
               ++ LF ++ "X-Ca-Key:K" ++ LF
               ++ "/pro/test?apikey=A&isnos=N&token=T"
    /\ header "X-Ca-Signature"
              (request_headers (init "K" "S" "A" "T" "N") "/pro/test")
       = Some "/myh1mLwO7sTrfm+mP2+n3s5cN4w7JHV6Voauemquok=".
Proof.
  intros self endpoint.
  split; [reflexivity|]. split; [reflexivity|]. split; [reflexivity|].
  split; [|split; [reflexivity | vm_compute; reflexivity]].
  intros self' endpoint' Hk Hs Hc.
  change (Some (signature self' endpoint') = Some (signature self endpoint)).
  unfold signature, string_to_sign. now rewrite Hk, Hs, Hc.
Qed.

Lemma C2_signature_of_the_signing_string_witness :
  header "X-Ca-Signature"
         (request_headers (init "K" "S" "other" "T" "N") "/pro/x?b=1&a=2")
  = header "X-Ca-Signature"
           (request_headers (init "K" "S" "other" "T" "N") "/pro/x?a=2&b=1").
Proof.
  apply (proj1 (proj2 (proj2 (proj2
           (C2_signature_of_the_signing_string
              (init "K" "S" "other" "T" "N") "/pro/x?a=2&b=1"))))
           (init "K" "S" "other" "T" "N") "/pro/x?b=1&a=2");
    vm_compute; reflexivity.
Defined.

(** ** The outcomes of a request *)

(** The value of [_make_request], case by case. *)
Lemma _make_request_value (self : AisweiSolarAPI) (endpoint : string)
  (get : transport) :
  snd (_make_request self endpoint get)
  = match get (url self endpoint) (request_headers self endpoint) with
    | GetReturns r =>
        if (status_code r =? 200)%Z
        then match json r with
             | Return v => Return v
             | Raise _ =>
                 Return (PDict
                   [ ("error", PStr "Failed to parse JSON response");
                     ("status", PInt (status_code r)) ])
             end
        else Return (PDict
               [ ("error", PStr (text r));
                 ("status", PInt (status_code r));
                 ("headers", headers_value (headers r)) ])
    | GetRaises e =>
        match exn_cls e with
        | RequestException => Return (PDict [ ("error", PStr (exn_str e)) ])
        | _ => Raise e
        end
    end.
Proof.
  unfold _make_request.
  destruct (get (url self endpoint) (request_headers self endpoint))
    as [r|e].
  - destruct (status_code r =? 200)%Z; [destruct (json r)|]; reflexivity.
  - destruct (exn_cls e); reflexivity.
Qed.

(** The object [dict(response.headers)] holds the names of the headers
    in their order, each with its text. *)
Lemma headers_value_spec (h : list (string * string)) :
  exists hd,
    headers_value h = PDict hd
    /\ PyDict.keys hd = map fst h
    /\ map snd hd = map PStr (map snd h)
    /\ forall k, PyDict.lookup k hd = option_map PStr (header k h).
Proof.
  exists (map (fun kv => (fst kv, PStr (snd kv))) h).
  split; [reflexivity|]. unfold PyDict.keys.
  split; [now rewrite map_map|].
  split; [now rewrite !map_map|].
  intros k. induction h as [|[k' v] h IH]; [reflexivity|].
  cbn [map fst snd PyDict.lookup header].
  destruct (String.eqb k' k); [reflexivity | exact IH].
Qed.

(** C3.  Whatever the HTTP exchange gives, [_make_request] returns a value
    and raises nothing: the parsed body for a 200 whose body parses; for a
    200 whose body does not parse, an error object with the parse-failure
    message and the status; for another status, an error object with the
    body, the status and the headers of the response, that is an object
    with the names of the response's headers in their order, each with its
    text, so that looking a name up in it gives what the response gives;
    for a failure of the transport, an error object with its
    description. *)
Theorem C3_request_returns_a_result :
  forall (self : AisweiSolarAPI) (endpoint : string) (get : transport),
    http_outcome (get (url self endpoint) (request_headers self endpoint)) ->
    (exists v, snd (_make_request self endpoint get) = Return v)
    /\ (forall r,
           get (url self endpoint) (request_headers self endpoint)
           = GetReturns r ->
           (status_code r = 200%Z ->
            forall v, json r = Return v ->
                      snd (_make_request self endpoint get) = Return v)
           /\ (status_code r = 200%Z ->
               forall e, json r = Raise e ->
                 snd (_make_request self endpoint get)
                 = Return (PDict
                     [ ("error", PStr "Failed to parse JSON response");
                       ("status", PInt (status_code r)) ]))
           /\ (status_code r <> 200%Z ->
               snd (_make_request self endpoint get)
               = Return (PDict
                   [ ("error", PStr (text r));
                     ("status", PInt (status_code r));
                     ("headers", headers_value (headers r)) ])
               /\ exists hd,
                   snd (_make_request self endpoint get)
                   = Return (PDict
                       [ ("error", PStr (text r));
                         ("status", PInt (status_code r));
                         ("headers", PDict hd) ])
                   /\ PyDict.keys hd = map fst (headers r)
                   /\ map snd hd = map PStr (map snd (headers r))
                   /\ forall k, PyDict.lookup k hd
                                = option_map PStr (header k (headers r))))
    /\ (forall e,
           get (url self endpoint) (request_headers self endpoint)
           = GetRaises e ->
           snd (_make_request self endpoint get)
           = Return (PDict [ ("error", PStr (exn_str e)) ])).
Proof.
  intros self endpoint get Hout. rewrite _make_request_value.
  destruct (get (url self endpoint) (request_headers self endpoint))
    as [r|e]; simpl in Hout.
  - split; [|split].
    + destruct (status_code r =? 200)%Z; [destruct (json r)|];
        eexists; reflexivity.
    + intros r' [= <-]. split; [|split].
      * intros Hs v Hj. apply Z.eqb_eq in Hs. now rewrite Hs, Hj.
      * intros Hs e Hj. pose proof Hs as Hs'. apply Z.eqb_eq in Hs'.
        now rewrite Hs', Hj.
      * intros Hs. apply Z.eqb_neq in Hs. rewrite Hs.
        split; [reflexivity|].
        destruct (headers_value_spec (headers r)) as (hd & -> & Hk & Hv & Hl).
        exists hd. now repeat split.
    + discriminate.
  - rewrite Hout. split; [|split].
    + eexists; reflexivity.
    + discriminate.
    + now intros e' [= <-].
Qed.

Lemma C3_request_returns_a_result_witness :
  snd (_make_request (init "K" "S" "A" "T" "N") "/pro/getPlanListPro"
         (fun _ _ => GetReturns
            {| status_code := 403; text := "Forbidden";
               headers := [("X-Ca-Error-Message", "Invalid Signature");
                           ("Content-Length", "9")];
               json := Raise (Exn ValueError "Expecting value") |}))
  = Return (PDict
      [ ("error", PStr "Forbidden");
        ("status", PInt 403);
        ("headers",
         PDict [ ("X-Ca-Error-Message", PStr "Invalid Signature");
                 ("Content-Length", PStr "9") ]) ]).
Proof.
  destruct (C3_request_returns_a_result (init "K" "S" "A" "T" "N")
              "/pro/getPlanListPro"
              (fun _ _ => GetReturns
                 {| status_code := 403; text := "Forbidden";
                    headers := [("X-Ca-Error-Message", "Invalid Signature");
                                ("Content-Length", "9")];
                    json := Raise (Exn ValueError "Expecting value") |}) I)
    as (_ & H & _).
  destruct (H _ eq_refl) as (_ & _ & H403).
  destruct (H403 ltac:(discriminate)) as (_ & hd & -> & Hk & Hv & _).
  unfold PyDict.keys in Hk.
  destruct hd as [|[k1 v1] [|[k2 v2] [|? ?]]]; try discriminate.
  cbn [map fst snd headers] in Hk, Hv.
  injection Hk as -> ->. injection Hv as -> ->. reflexivity.
Defined.

(** C9.  The three error objects differ by their keys: a failure of the
    transport gives the key [error] alone; a body that does not parse
    gives [error] and [status], and the status is 200; a status other
    than 200 gives [error], [status] and [headers]. *)
Theorem C9_error_results_differ_by_keys :
  forall (self : AisweiSolarAPI) (endpoint : string) (get : transport),
    http_outcome (get (url self endpoint) (request_headers self endpoint)) ->
    (forall e,
        get (url self endpoint) (request_headers self endpoint)
        = GetRaises e ->
        exists d, snd (_make_request self endpoint get) = Return (PDict d)
                  /\ PyDict.keys d = ["error"]
                  /\ PyDict.mem "status" d = false
                  /\ PyDict.mem "headers" d = false)
    /\ (forall r e,
           get (url self endpoint) (request_headers self endpoint)
           = GetReturns r ->
           status_code r = 200%Z -> json r = Raise e ->
           exists d, snd (_make_request self endpoint get) = Return (PDict d)
                     /\ PyDict.keys d = ["error"; "status"]
                     /\ PyDict.lookup "status" d = Some (PInt 200)
                     /\ PyDict.mem "headers" d = false)
    /\ (forall r,
           get (url self endpoint) (request_headers self endpoint)
           = GetReturns r ->
           status_code r <> 200%Z ->
           exists d, snd (_make_request self endpoint get) = Return (PDict d)
                     /\ PyDict.keys d = ["error"; "status"; "headers"]
                     /\ PyDict.lookup "status" d
                        = Some (PInt (status_code r))
                     /\ PyDict.mem "headers" d = true).
Proof.
  intros self endpoint get Hout. rewrite _make_request_value.
  destruct (get (url self endpoint) (request_headers self endpoint))
    as [r|e]; simpl in Hout.
  - split; [discriminate|]. split.
    + intros r' e [= <-] Hs Hj. rewrite Hj, Hs. simpl.
      eexists. split; [reflexivity|]. repeat split.
    + intros r' [= <-] Hs. apply Z.eqb_neq in Hs. rewrite Hs.
      eexists. split; [reflexivity|]. repeat split.
  - rewrite Hout. split; [|split; discriminate].
    intros e' _. eexists. split; [reflexivity|]. repeat split.
Qed.

Lemma C9_error_results_differ_by_keys_witness :
  exists d,
    snd (_make_request (init "K" "S" "A" "T" "N") "/pro/getPlanListPro"
           (fun _ _ => GetReturns
              {| status_code := 403; text := "Forbidden";
                 headers := [("Server", "gateway")];
                 json := Raise (Exn ValueError "") |}))
    = Return (PDict d)
    /\ PyDict.keys d = ["error"; "status"; "headers"]
    /\ PyDict.lookup "status" d = Some (PInt 403)
    /\ PyDict.mem "headers" d = true.
Proof.
  apply (proj2 (proj2
           (C9_error_results_differ_by_keys (init "K" "S" "A" "T" "N")
              "/pro/getPlanListPro"
              (fun _ _ => GetReturns
                 {| status_code := 403; text := "Forbidden";
                    headers := [("Server", "gateway")];
                    json := Raise (Exn ValueError "") |}) I))
           {| status_code := 403; text := "Forbidden";
              headers := [("Server", "gateway")];
              json := Raise (Exn ValueError "") |} eq_refl).
  discriminate.
Defined.

(** ** The operations *)

Module CatalogFacts.

Lemma code_digit_char (n : Z) :
  PyParse.code (digit_char n) = (48 + n mod 10)%Z.
Proof.
  unfold PyParse.code, digit_char.
  pose proof (Z.mod_pos_bound n 10 eq_refl) as Hb.
  rewrite N_ascii_embedding; [apply Z2N.id; lia|].
  apply N2Z.inj_lt. rewrite Z2N.id by lia.
  change (Z.of_N 256) with 256%Z. lia.
Qed.

Lemma is_digit_digit_char (n : Z) :
  PyParse.is_digit (digit_char n) = true.
Proof.
  unfold PyParse.is_digit. rewrite code_digit_char.
  pose proof (Z.mod_pos_bound n 10 eq_refl) as Hb.
  apply andb_true_iff. split; apply Z.leb_le; lia.
Qed.

(** A digit is none of the other characters. *)
Lemma digit_char_neq (n : Z) (c : ascii) :
  PyParse.is_digit c = false -> Ascii.eqb (digit_char n) c = false.
Proof.
  intros Hc. destruct (Ascii.eqb_spec (digit_char n) c) as [<-|]; auto.
  now rewrite is_digit_digit_char in Hc.
Qed.

Lemma zero_padded_without (w : nat) (n : Z) (c : ascii) :
  PyParse.is_digit c = false ->
  PyStr.contains c (zero_padded w n) = false.
Proof.
  intros Hc. revert n. induction w as [|w IH]; intros n; [reflexivity|].
  cbn [zero_padded]. rewrite contains_append, IH.
  cbn [PyStr.contains]. now rewrite (digit_char_neq _ _ Hc).
Qed.

Lemma strftime_shape (d : date) : is_Y_m_d (strftime_Y_m_d d) = true.
Proof.
  unfold is_Y_m_d, strftime_Y_m_d. simpl.
  now rewrite !is_digit_digit_char.
Qed.

(** The date holds digits and dashes only. *)
Lemma strftime_without (d : date) (c : ascii) :
  PyParse.is_digit c = false -> Ascii.eqb "-" c = false ->
  PyStr.contains c (strftime_Y_m_d d) = false.
Proof.
  intros Hd Hm. unfold strftime_Y_m_d.
  rewrite !contains_append, !(zero_padded_without _ _ _ Hd).
  cbn [PyStr.contains]. now rewrite Hm.
Qed.

Lemma params_of_cut (path query : string) :
  PyStr.contains "?" path = false -> PyStr.contains "?" query = false ->
  params_of (path ++ String "?" query) = PyStr.split "&" query.
Proof.
  intros Hp Hq. unfold params_of.
  rewrite (split_at_first _ _ _ Hp). now rewrite (split_without _ _ Hq).
Qed.

End CatalogFacts.

(** C7 as stated fails on its counts: the class has fourteen operations,
    thirteen that read and one that creates, and two of them write
    parameters of their own. *)
Lemma C7_counterexample :
  ~ (length (filter is_read operations) = 14
     /\ length (filter is_create operations) = 1
     /\ length (filter (fun op => has_extra_params op
                           {| year := 2026; month := 3; day := 7 |})
                       operations) = 3).
Proof. vm_compute. intros (H & _). discriminate. Qed.

(** C7, as amended.  The class has fourteen operations, each with a name
    of its own: thirteen read operations and one create operation.  Each
    has one path, [/pro/] followed by its name, whatever the date.  Two
    of them write parameters after the path: [getPlantOutputPro] writes
    [period=bydays] and [date], [getInverterETodayPro] writes [date], the
    date being today's in the shape YYYY-MM-DD; the twelve others pass
    the bare path. *)
Theorem C7_operation_catalog :
  (forall op, In op operations)
  /\ NoDup (map operation_name operations)
  /\ length operations = 14
  /\ length (filter is_read operations) = 13
  /\ filter is_create operations = [createstationPro]
  /\ (forall op, is_read op = negb (is_create op))
  /\ (forall op today,
         path_of (operation_endpoint op today)
         = "/pro/" ++ operation_name op)
  /\ (forall today,
         filter (fun op => has_extra_params op today) operations
         = [getPlantOutputPro; getInverterETodayPro])
  /\ (forall today,
         params_of (operation_endpoint getPlantOutputPro today)
         = ["period=bydays"; "date=" ++ strftime_Y_m_d today])
  /\ (forall today,
         params_of (operation_endpoint getInverterETodayPro today)
         = ["date=" ++ strftime_Y_m_d today])
  /\ (forall today, is_Y_m_d (strftime_Y_m_d today) = true)
  /\ (forall op today,
         operation_endpoint op today
         = if has_extra_params op today
           then "/pro/" ++ operation_name op ++ "?"
                        ++ join "&" (params_of (operation_endpoint op today))
           else "/pro/" ++ operation_name op).
Proof.
  assert (forall today c, PyParse.is_digit c = false ->
                          Ascii.eqb "-" c = false ->
            split c (strftime_Y_m_d today) = [strftime_Y_m_d today]) as Hsplit.
  { intros today c Hd Hm. apply split_without.
    now apply CatalogFacts.strftime_without. }
  assert (forall today,
             params_of (operation_endpoint getPlantOutputPro today)
             = ["period=bydays"; "date=" ++ strftime_Y_m_d today]) as Hout.
  { intros today.
    change (operation_endpoint getPlantOutputPro today)
      with ("/pro/getPlantOutputPro"
              ++ String "?" ("period=bydays&date=" ++ strftime_Y_m_d today)).
    rewrite CatalogFacts.params_of_cut;
      [| reflexivity
       | simpl; now apply CatalogFacts.strftime_without].
    change ("period=bydays&date=" ++ strftime_Y_m_d today)
      with ("period=bydays"
              ++ String "&" ("date=" ++ strftime_Y_m_d today)).
    rewrite split_at_first by reflexivity.
    rewrite split_without; [reflexivity|].
    simpl. now apply CatalogFacts.strftime_without. }
  assert (forall today,
             params_of (operation_endpoint getInverterETodayPro today)
             = ["date=" ++ strftime_Y_m_d today]) as Htoday.
  { intros today.
    change (operation_endpoint getInverterETodayPro today)
      with ("/pro/getInverterETodayPro"
              ++ String "?" ("date=" ++ strftime_Y_m_d today)).
    rewrite CatalogFacts.params_of_cut;
      [| reflexivity
       | simpl; now apply CatalogFacts.strftime_without].
    rewrite split_without; [reflexivity|].
    simpl. now apply CatalogFacts.strftime_without. }
  split; [intros op; destruct op; simpl; tauto|].
  split.
  { repeat (constructor; [simpl; intuition discriminate|]). constructor. }
  split; [reflexivity|]. split; [reflexivity|]. split; [reflexivity|].
  split; [intros op; destruct op; reflexivity|].
  split; [intros op today; destruct op; reflexivity|].
  split; [intros today; reflexivity|].
  split; [exact Hout|]. split; [exact Htoday|].
  split; [exact CatalogFacts.strftime_shape|].
  intros op today.
  destruct op; try reflexivity.
  - change (has_extra_params getPlantOutputPro today) with true.
    cbv iota. rewrite Hout. reflexivity.
  - change (has_extra_params getInverterETodayPro today) with true.
    cbv iota. rewrite Htoday. reflexivity.
Qed.

(** ** Dictionaries *)

Module PyDictFacts.
Import PyDict.

Lemma lookup_None_keys (k : string) (d : dict) :
  lookup k d = None <-> ~ In k (keys d).
Proof.
  induction d as [|[k' v] d IH]; simpl; [tauto|].
  destruct (String.eqb_spec k' k) as [->|Hne].
  - split; [discriminate | intros H; exfalso; apply H; now left].
  - rewrite IH. tauto.
Qed.

Lemma keys_set_present (k : string) (v : pyval) (d : dict) :
  In k (keys d) -> keys (set k v d) = keys d.
Proof.
  induction d as [|[k' v'] d IH]; simpl; [tauto|].
  destruct (String.eqb_spec k' k) as [->|Hne]; [reflexivity|].
  intros [H|H]; [contradiction|]. simpl. now rewrite IH.
Qed.

Lemma lookup_set_same (k : string) (v : pyval) (d : dict) :
  lookup k (set k v d) = Some v.
Proof.
  induction d as [|[k' v'] d IH]; simpl.
  - now rewrite String.eqb_refl.
  - destruct (String.eqb_spec k' k) as [->|Hne]; simpl.
    + now rewrite String.eqb_refl.
    + destruct (String.eqb_spec k' k); [contradiction | exact IH].
Qed.

Lemma lookup_set_other (k k' : string) (v : pyval) (d : dict) :
  k <> k' -> lookup k (set k' v d) = lookup k d.
Proof.
  intros Hne. induction d as [|[k'' v''] d IH]; simpl.
  - destruct (String.eqb_spec k' k); [congruence | reflexivity].
  - destruct (String.eqb_spec k'' k') as [->|Hne']; simpl.
    + destruct (String.eqb_spec k' k); [congruence | reflexivity].
    + destruct (String.eqb_spec k'' k); [reflexivity | exact IH].
Qed.

(** Merging a record whose keys the dict already has adds no key. *)
Lemma keys_update (d other : dict) :
  incl (keys other) (keys d) -> keys (update d other) = keys d.
Proof.
  unfold update. revert d.
  induction other as [|[k v] other IH]; intros d Hincl; [reflexivity|].
  simpl. assert (keys (set k v d) = keys d) as Hk
      by (apply keys_set_present; apply Hincl; now left).
  rewrite IH; [exact Hk|].
  rewrite Hk. intros x Hx. apply Hincl. now right.
Qed.

(** Merging leaves alone the keys the record does not have. *)
Lemma lookup_update_absent (k : string) (d other : dict) :
  lookup k other = None -> lookup k (update d other) = lookup k d.
Proof.
  unfold update. revert d.
  induction other as [|[k' v] other IH]; intros d; [reflexivity|].
  simpl. destruct (String.eqb_spec k' k) as [->|Hne]; [discriminate|].
  intros H. rewrite (IH _ H). apply lookup_set_other. congruence.
Qed.

(** Merging writes the value of every key the record has, when the
    record has each key once. *)
Lemma lookup_update_present (k : string) (v : pyval) (d other : dict) :
  NoDup (keys other) -> lookup k other = Some v ->
  lookup k (update d other) = Some v.
Proof.
  unfold update. revert d.
  induction other as [|[k' v'] other IH]; intros d Hnd; [discriminate|].
  simpl in *. inversion Hnd as [|? ? Hnotin Hnd']; subst.
  destruct (String.eqb_spec k' k) as [->|Hne].
  - intros [= ->].
    change (lookup k (update (set k v d) other) = Some v).
    rewrite lookup_update_absent by now apply lookup_None_keys.
    apply lookup_set_same.
  - intros H. now apply IH.
Qed.

End PyDictFacts.

(** ** The normaliser *)

Module NormalizerFacts.
Import PyDict PyDictFacts.

Lemma is_api_success_dict (d : dict) :
  is_api_success (PDict d)
  = Return (py_eq_int (get d "status" PNone) 200
            && py_eq_str (get d "info" PNone) "success"
            && mem "data" d).
Proof.
  unfold is_api_success. simpl.
  destruct (py_eq_int (get d "status" PNone) 200); simpl; [|reflexivity].
  destruct (py_eq_str (get d "info" PNone) "success"); reflexivity.
Qed.

(** [safe_float] with the default 0 returns the default or a float. *)
Lemma safe_float_shape (v x : pyval) :
  safe_float v (PInt 0) = Return x ->
  x = PInt 0 \/ exists f, x = PFloat f.
Proof.
  unfold safe_float, catching_value_type.
  destruct v as [|b|z|f|s|l|d]; simpl.
  - intros [= <-]. now left.
  - intros [= <-]. right. eexists; reflexivity.
  - unfold PyFloat.of_int. destruct (PyFloat.of_Z z); simpl;
      try discriminate; intros [= <-]; right; eexists; reflexivity.
  - intros [= <-]. right. eexists; reflexivity.
  - destruct (PyParse.parse_float s); simpl; intros [= <-];
      [right; eexists; reflexivity | now left].
  - intros [= <-]. now left.
  - intros [= <-]. now left.
Qed.

Lemma safe_float_returns (v : pyval) :
  float_convertible v = true -> exists x, safe_float v (PInt 0) = Return x.
Proof.
  unfold safe_float, catching_value_type, float_convertible.
  destruct v as [|b|z|f|s|l|d]; simpl; try (intros _; eexists; reflexivity).
  - unfold PyFloat.of_int. destruct (PyFloat.of_Z z); simpl;
      try discriminate; intros _; eexists; reflexivity.
  - destruct (PyParse.parse_float s); simpl; intros _; eexists; reflexivity.
Qed.

Lemma safe_int_returns (v : pyval) :
  int_convertible v = true -> exists x, safe_int v (PInt 0) = Return x.
Proof.
  unfold safe_int, catching_value_type, int_convertible.
  destruct v as [|b|z|f|s|l|d]; simpl; try (intros _; eexists; reflexivity).
  - destruct f; simpl; try discriminate; intros _; eexists; reflexivity.
  - destruct (PyParse.parse_int s); simpl; intros _; eexists; reflexivity.
Qed.

(** A value that is neither a number nor a numeric text, an absent
    value and [None] all give the default. *)
Lemma safe_float_default (v default : pyval) :
  match v with
  | PNone | PList _ | PDict _ => True
  | PStr s => PyParse.parse_float s = None
  | _ => False
  end ->
  safe_float v default = Return default.
Proof.
  unfold safe_float, catching_value_type.
  destruct v; simpl; try tauto; try reflexivity.
  now intros ->.
Qed.

Lemma numeric_fields_divisors :
  Forall (fun kd => small_divisor (snd kd)) numeric_fields.
Proof.
  unfold small_divisor.
  repeat (apply Forall_cons; [simpl; auto|]). apply Forall_nil.
Qed.

(** Division by 10, 100 or 1000 never raises on what [safe_float]
    returns. *)
Lemma py_truediv_returns (x : pyval) (n : positive) :
  small_divisor (Some n) ->
  x = PInt 0 \/ (exists f, x = PFloat f) ->
  exists f, py_truediv x n = Return (PFloat f).
Proof.
  intros Hn [->|[f ->]].
  - eexists; reflexivity.
  - destruct Hn as [Hn|[Hn|[Hn|Hn]]]; try discriminate;
      injection Hn as ->; eexists; reflexivity.
Qed.

Lemma numeric_entry_returns (device : dict) (k : string)
  (dv : option positive) :
  small_divisor dv ->
  float_convertible (get device k (PInt 0)) = true ->
  exists v, numeric_entry (PDict device) k dv = Return v.
Proof.
  intros Hd Hc. unfold numeric_entry. simpl.
  destruct (safe_float_returns _ Hc) as [x Hx]. rewrite Hx. simpl.
  destruct dv as [n|]; [|eexists; reflexivity].
  destruct (py_truediv_returns x n Hd (safe_float_shape _ _ Hx)) as [f Hf].
  eexists; exact Hf.
Qed.

Lemma numeric_entries_returns (device : dict)
  (fields : list (string * option positive)) :
  Forall (fun kd => small_divisor (snd kd)) fields ->
  forallb (fun k => float_convertible (get device k (PInt 0)))
          (map fst fields) = true ->
  exists rest, numeric_entries (PDict device) fields = Return rest.
Proof.
  induction fields as [|[k dv] fields IH]; intros Hd Hc.
  - eexists; reflexivity.
  - inversion Hd as [|? ? Hd1 Hd2]; subst. simpl in Hc.
    apply andb_true_iff in Hc as [Hc1 Hc2].
    destruct (numeric_entry_returns device k dv Hd1 Hc1) as [v Hv].
    destruct (IH Hd2 Hc2) as [rest Hrest].
    cbn [numeric_entries]. rewrite Hv, Hrest. eexists; reflexivity.
Qed.

Lemma numeric_entries_keys (device : pyval)
  (fields : list (string * option positive)) (rest : dict) :
  numeric_entries device fields = Return rest ->
  keys rest = map fst fields.
Proof.
  revert rest. induction fields as [|[k dv] fields IH]; intros rest.
  - now intros [= <-].
  - cbn [numeric_entries].
    destruct (numeric_entry device k dv); [|discriminate].
    destruct (numeric_entries device fields); [|discriminate].
    simpl. intros [= <-]. simpl. f_equal. now apply IH.
Qed.

(** An absent raw field gives the float zero. *)
Lemma numeric_entry_absent (device : dict) (k : string)
  (dv : option positive) :
  small_divisor dv -> lookup k device = None ->
  numeric_entry (PDict device) k dv = Return (PFloat (S754_zero false)).
Proof.
  intros Hd Hk. unfold numeric_entry, py_get, get. rewrite Hk.
  destruct Hd as [->|[->|[->| ->]]]; reflexivity.
Qed.

End NormalizerFacts.

Import PyDict PyDictFacts NormalizerFacts.

(** What [extract_live_data] has computed when it returns. *)
Lemma extract_live_data_inv (resp : pyval) (rec : dict) :
  extract_live_data resp = Return rec ->
  rec = []
  \/ exists devices dev pac power state rest,
      is_api_success resp = Return true
      /\ py_get resp "data" (PList []) = Return devices
      /\ truthy devices = true
      /\ first_device devices = Return (PDict dev)
      /\ safe_float (get dev "pac" (PInt 0)) (PInt 0) = Return pac
      /\ (if truthy pac then py_truediv pac 1000 else Return (PInt 0))
         = Return power
      /\ safe_int (get dev "currentState" PNone) (PInt 0) = Return state
      /\ numeric_entries (PDict dev) numeric_fields = Return rest
      /\ rec = ([ ("power", power);
                  ("device_name", get dev "sn" (PStr "Unknown"));
                  ("timestamp", get dev "tim" (PStr ""));
                  ("status",
                   PStr (if py_eq_int state 1 then "Normal" else "Offline"));
                  ("pac", pac) ] ++ rest)%list.
Proof.
  unfold extract_live_data. intros H.
  destruct (is_api_success resp) as [[|]|] eqn:Hok; cbn [bind negb py_get] in H;
    [| injection H as <-; now left | discriminate].
  destruct (py_get resp "data" (PList [])) as [devices|] eqn:Hdata;
    cbn [bind negb py_get] in H; [|discriminate].
  destruct (truthy devices) eqn:Htruthy; cbn [bind negb py_get] in H;
    [| injection H as <-; now left].
  destruct (first_device devices) as [device|] eqn:Hdev; cbn [bind negb py_get] in H;
    [|discriminate].
  destruct device as [|b|z|f|s|l|dev]; cbn [bind negb py_get] in H; try discriminate.
  destruct (safe_float (get dev "pac" (PInt 0)) (PInt 0)) as [pac|] eqn:Hpac;
    cbn [bind negb py_get] in H; [|discriminate].
  destruct (if truthy pac then py_truediv pac 1000 else Return (PInt 0))
    as [power|] eqn:Hpower; cbn [bind negb py_get] in H; [|discriminate].
  destruct (safe_int (get dev "currentState" PNone) (PInt 0))
    as [state|] eqn:Hstate; cbn [bind negb py_get] in H; [|discriminate].
  destruct (numeric_entries (PDict dev) numeric_fields) as [rest|] eqn:Hrest;
    cbn [bind negb py_get] in H; [|discriminate].
  injection H as <-. right.
  exists devices, dev, pac, power, state, rest. repeat split; auto.
Qed.

Lemma record_keys_NoDup : NoDup record_keys.
Proof.
  unfold record_keys.
  repeat (constructor; [simpl; intuition discriminate|]). constructor.
Qed.

(** [extract_live_data] returns on a successful response whose device is
    a record with its numbers in range, and the record has the fixed
    keys. *)
Lemma extract_live_data_returns (d dev : dict) :
  is_api_success (PDict d) = Return true ->
  truthy (get d "data" (PList [])) = true ->
  first_device (get d "data" (PList [])) = Return (PDict dev) ->
  numbers_in_range dev = true ->
  exists rec, extract_live_data (PDict d) = Return rec
              /\ keys rec = record_keys.
Proof.
  intros Hok Htruthy Hdev Hrange.
  unfold numbers_in_range in Hrange.
  apply andb_true_iff in Hrange as [Hfloat Hint].
  cbn [forallb] in Hfloat. apply andb_true_iff in Hfloat as [Hpac Hfields].
  destruct (safe_float_returns _ Hpac) as [pac Hp].
  destruct (safe_int_returns _ Hint) as [state Hs].
  destruct (numeric_entries_returns dev numeric_fields
              numeric_fields_divisors Hfields) as [rest Hrest].
  assert (exists power,
             (if truthy pac then py_truediv pac 1000 else Return (PInt 0))
             = Return power) as [power Hpow].
  { destruct (truthy pac); [|eexists; reflexivity].
    destruct (py_truediv_returns pac 1000) as [f Hf].
    - unfold small_divisor. auto.
    - now apply safe_float_shape in Hp.
    - eexists; exact Hf. }
  eexists. split.
  - unfold extract_live_data. rewrite Hok. cbn [bind negb py_get].
    rewrite Htruthy. cbn [bind negb py_get]. rewrite Hdev.
    cbn [bind negb py_get]. rewrite Hp. cbn [bind]. rewrite Hpow.
    cbn [bind]. rewrite Hs. cbn [bind]. rewrite Hrest. reflexivity.
  - pose proof (numeric_entries_keys _ _ _ Hrest) as Hk.
    unfold keys in *. rewrite map_app, Hk. reflexivity.
Qed.

(** C5.  The success check of a response is: its [status] equals 200, its
    [info] equals [success], and it has a [data] field.  A response that
    fails the check, and a successful response whose [data] is the empty
    sequence, are normalised to the empty mapping; so are the three
    responses of the specification. *)
Theorem C5_failed_check_or_empty_data_gives_empty_mapping :
  forall d : dict,
    is_api_success (PDict d)
    = Return (py_eq_int (get d "status" PNone) 200
              && py_eq_str (get d "info" PNone) "success"
              && mem "data" d)
    /\ (py_eq_int (get d "status" PNone) 200 = false
        \/ py_eq_str (get d "info" PNone) "success" = false
        \/ mem "data" d = false ->
        extract_live_data (PDict d) = Return [])
    /\ (is_api_success (PDict d) = Return true ->
        lookup "data" d = Some (PList []) ->
        extract_live_data (PDict d) = Return [])
    /\ extract_live_data (PDict [ ("status", PInt 500) ]) = Return []
    /\ extract_live_data
         (PDict [ ("status", PInt 200); ("info", PStr "fail") ]) = Return []
    /\ extract_live_data
         (PDict [ ("status", PInt 200); ("info", PStr "success");
                  ("data", PList []) ]) = Return [].
Proof.
  intros d. split; [apply is_api_success_dict|]. split; [|split].
  - intros H. unfold extract_live_data. rewrite is_api_success_dict.
    assert (py_eq_int (get d "status" PNone) 200
            && py_eq_str (get d "info" PNone) "success"
            && mem "data" d = false) as ->; [|reflexivity].
    destruct H as [-> | [-> | ->]];
      rewrite ?andb_false_r; reflexivity.
  - intros Hok Hdata. unfold extract_live_data. rewrite Hok.
    cbn [bind negb py_get]. unfold get. rewrite Hdata. reflexivity.
  - repeat split; reflexivity.
Qed.

Lemma C5_failed_check_or_empty_data_gives_empty_mapping_witness :
  extract_live_data
    (PDict [ ("status", PInt 401); ("info", PStr "success");
             ("data", PList [ PDict [ ("pac", PInt 7) ] ]) ]) = Return [].
Proof.
  apply (proj1 (proj2
           (C5_failed_check_or_empty_data_gives_empty_mapping
              [ ("status", PInt 401); ("info", PStr "success");
                ("data", PList [ PDict [ ("pac", PInt 7) ] ]) ]))).
  left. reflexivity.
Defined.

(** C4 as stated fails on the example: the record has fields other than
    [power], [device_name] and [status] that are not at a zero default.
    The field [pac] carries the given 1500.0, and the timestamp is the
    empty text. *)
Lemma C4_counterexample :
  exists rec,
    extract_live_data example_response = Return rec
    /\ at_zero_default_except ["power"; "device_name"; "status"] rec = false
    /\ lookup "pac" rec = Some (PFloat (PyFloat.of_Z 1500))
    /\ zero_default (PFloat (PyFloat.of_Z 1500)) = false
    /\ lookup "timestamp" rec = Some (PStr "")
    /\ zero_default (PStr "") = false.
Proof.
  exists example_record. repeat split; vm_compute; reflexivity.
Qed.

(** C4, as amended.  The response of the example is normalised to power
    1.5, device name [X1], status [Normal], the given [pac] 1500.0, an
    empty timestamp, and a zero for every other field.

    [status] is [Normal] exactly when the raw [currentState] coerces to
    the integer 1, as [int] does it: the text [1], also with a sign, white
    space or leading zeros up to the limit of 4300 digits, the integer 1,
    [True], and a float that truncates to 1; it is [Offline] for every
    other value, the texts [1.0] and [1e0], a text of 4301 digits and a
    missing or null field among them.  [power] is [pac / 1000], and the
    integer 0 when [pac] is zero, missing or not a number.  [device_name]
    is the raw [sn], or [Unknown] when the device has none.

    In general, whenever the normaliser returns a record for a device:
    [power] is [pac / 1000], where [pac] is the raw field coerced to a
    float (the integer 0 when [pac] is zero, which that quotient equals);
    [status] is [Normal] exactly when the raw [currentState] coerces to
    the integer 1, and [Offline] otherwise; [device_name] is the raw [sn],
    or [Unknown] when the device has none. *)
Theorem C4_power_status_and_device_name :
  extract_live_data example_response = Return example_record
  /\ (lookup "power" example_record
        = Some (PFloat (PyFloat.of_decimal false 15 (-1)))
      /\ lookup "device_name" example_record = Some (PStr "X1")
      /\ lookup "status" example_record = Some (PStr "Normal")
      /\ lookup "pac" example_record = Some (PFloat (PyFloat.of_Z 1500))
      /\ lookup "timestamp" example_record = Some (PStr "")
      /\ at_zero_default_except
           ["power"; "device_name"; "status"; "pac"; "timestamp"]
           example_record = true)
  /\ map status_for
         [ PStr "1"; PStr " 1 "; PStr "+1"; PStr "01";
           PStr (zero_padded 4300 1);
           PInt 1; PBool true; PFloat (PyFloat.of_Z 1);
           PFloat (PyFloat.of_decimal false 19 (-1)) ]
     = repeat (Return (Some (PStr "Normal"))) 9
  /\ map status_for
         [ PStr "1.0"; PStr "1e0"; PStr "1_0"; PStr "one"; PStr "";
           PStr (zero_padded 4301 1);
           PNone; PInt 0; PInt 2; PBool false; PList [];
           PFloat (PyFloat.of_decimal false 9 (-1));
           PFloat (PyFloat.of_decimal true 15 (-1));
           PFloat (PyFloat.of_Z 2); PFloat S754_nan ]
     = repeat (Return (Some (PStr "Offline"))) 15
  /\ status_for (PFloat (S754_infinity false))
     = Raise (Exn OverflowError "cannot convert float infinity to integer")
  /\ map power_for
         [ PStr "1500"; PInt 500; PStr "-250"; PBool true;
           PInt 0; PFloat (S754_zero false); PStr "N/A"; PNone ]
     = [ Return (Some (PFloat (PyFloat.of_decimal false 15 (-1))));
         Return (Some (PFloat (PyFloat.of_decimal false 5 (-1))));
         Return (Some (PFloat (PyFloat.of_decimal true 25 (-2))));
         Return (Some (PFloat (PyFloat.of_decimal false 1 (-3))));
         Return (Some (PInt 0)); Return (Some (PInt 0));
         Return (Some (PInt 0)); Return (Some (PInt 0)) ]
  /\ map (fun kv => device_name_for (fst kv) (snd kv))
         [ ("sn", PStr "X1"); ("pac", PInt 7); ("sn", PNone) ]
     = [ Return (Some (PStr "X1")); Return (Some (PStr "Unknown"));
         Return (Some PNone) ]
  /\ forall (resp : pyval) (rec : dict),
      extract_live_data resp = Return rec -> rec <> [] ->
      exists devices dev pac state power,
        py_get resp "data" (PList []) = Return devices
        /\ first_device devices = Return (PDict dev)
        /\ safe_float (get dev "pac" (PInt 0)) (PInt 0) = Return pac
        /\ safe_int (get dev "currentState" PNone) (PInt 0) = Return state
        /\ lookup "pac" rec = Some pac
        /\ lookup "power" rec = Some power
        /\ ((truthy pac = true /\ py_truediv pac 1000 = Return power)
            \/ (truthy pac = false /\ power = PInt 0
                /\ exists q, py_truediv pac 1000 = Return q
                             /\ py_eq_int q 0 = true))
        /\ lookup "status" rec
           = Some (PStr (if py_eq_int state 1 then "Normal" else "Offline"))
        /\ lookup "device_name" rec = Some (get dev "sn" (PStr "Unknown")).
Proof.
  split; [vm_compute; reflexivity|].
  split; [repeat split; vm_compute; reflexivity|].
  do 5 (split; [vm_compute; reflexivity|]).
  intros resp rec H Hne.
  destruct (extract_live_data_inv resp rec H)
    as [->|(devices & dev & pac & power & state & rest & _ & Hdata & _
             & Hdev & Hpac & Hpower & Hstate & _ & ->)]; [contradiction|].
  exists devices, dev, pac, state, power.
  repeat (split; [first [assumption | reflexivity]|]).
  split; [|split; reflexivity].
  destruct (truthy pac) eqn:Htruthy; [left; now split|].
  right. split; [reflexivity|]. injection Hpower as <-.
  split; [reflexivity|].
  destruct (safe_float_shape _ _ Hpac) as [->|[f ->]].
  - eexists. split; reflexivity.
  - destruct f; try discriminate. eexists. split; reflexivity.
Qed.

Lemma C4_power_status_and_device_name_witness :
  exists devices dev pac state power,
    py_get example_response "data" (PList []) = Return devices
    /\ first_device devices = Return (PDict dev)
    /\ safe_float (get dev "pac" (PInt 0)) (PInt 0) = Return pac
    /\ safe_int (get dev "currentState" PNone) (PInt 0) = Return state
    /\ lookup "pac" example_record = Some pac
    /\ lookup "power" example_record = Some power
    /\ ((truthy pac = true /\ py_truediv pac 1000 = Return power)
        \/ (truthy pac = false /\ power = PInt 0
            /\ exists q, py_truediv pac 1000 = Return q
                         /\ py_eq_int q 0 = true))
    /\ lookup "status" example_record
       = Some (PStr (if py_eq_int state 1 then "Normal" else "Offline"))
    /\ lookup "device_name" example_record
       = Some (get dev "sn" (PStr "Unknown")).
Proof.
  destruct C4_power_status_and_device_name
    as (Hexample & _ & _ & _ & _ & _ & _ & Hrecord).
  apply (Hrecord example_response); [exact Hexample | discriminate].
Defined.

(** ** The output object of [main] *)

Lemma record_keys_in_default_output (now : string) :
  incl record_keys (keys (default_output now)).
Proof.
  assert (forallb (fun k => existsb (String.eqb k)
                                    (keys (default_output now)))
                  record_keys = true) as H by reflexivity.
  rewrite forallb_forall in H. intros k Hk.
  destruct (proj1 (existsb_exists _ _) (H k Hk)) as (k' & Hin & Heq).
  apply String.eqb_eq in Heq. now subst.
Qed.

(** The keys of a record the normaliser returns: none, or the fixed
    ones. *)
Lemma extract_live_data_keys (resp : pyval) (rec : dict) :
  extract_live_data resp = Return rec ->
  rec = [] \/ keys rec = record_keys.
Proof.
  intros H.
  destruct (extract_live_data_inv resp rec H)
    as [->|(devices & dev & pac & power & state & rest & _ & _ & _
             & _ & _ & _ & _ & Hrest & ->)]; [now left|].
  right. apply numeric_entries_keys in Hrest.
  unfold keys in *. rewrite map_app, Hrest. reflexivity.
Qed.

(** When [main] gets as far as printing [output_data], the object has the
    keys of the default output and no other; a response that fails the
    success check leaves the default output as it is; otherwise [success]
    is true, every key of the normalised record carries the record's value
    and every other key keeps its default. *)
Lemma build_output_keys (now : string) (resp : pyval) (out : dict) :
  build_output now resp = Return out ->
  keys out = keys (default_output now)
  /\ ((is_api_success resp = Return false /\ out = default_output now)
      \/ exists rec,
          is_api_success resp = Return true
          /\ extract_live_data resp = Return rec
          /\ lookup "success" out = Some (PBool true)
          /\ forall k, k <> "success" ->
               (lookup k rec = None ->
                lookup k out = lookup k (default_output now))
               /\ (forall v, lookup k rec = Some v ->
                             lookup k out = Some v)).
Proof.
  unfold build_output. intros H.
  destruct (is_api_success resp) as [[|]|] eqn:Hok; cbn [bind] in H;
    [| injection H as <-; split; [reflexivity | now left] | discriminate].
  destruct (extract_live_data resp) as [rec|] eqn:Hrec; cbn [bind] in H;
    [|discriminate].
  injection H as <-.
  assert (incl (keys rec) (keys (default_output now))) as Hincl.
  { destruct (extract_live_data_keys _ _ Hrec) as [-> | ->].
    - intros k [].
    - apply record_keys_in_default_output. }
  assert (NoDup (keys rec)) as Hnd.
  { destruct (extract_live_data_keys _ _ Hrec) as [-> | ->].
    - constructor.
    - apply record_keys_NoDup. }
  split.
  - rewrite keys_set_present; rewrite keys_update by exact Hincl;
      [reflexivity | simpl; tauto].
  - right. exists rec. repeat split; auto.
    + apply lookup_set_same.
    + intros Hnone. rewrite lookup_set_other by exact H.
      now apply lookup_update_absent.
    + intros v Hv. rewrite lookup_set_other by exact H.
      now apply lookup_update_present.
Qed.

(** [main] does print [output_data] when the response fails the success
    check, when its data is empty, and when its device is a record with
    its numbers in range. *)
Lemma build_output_returns (now : string) (d : dict) :
  is_api_success (PDict d) = Return false
  \/ truthy (get d "data" (PList [])) = false
  \/ (exists dev,
         first_device (get d "data" (PList [])) = Return (PDict dev)
         /\ numbers_in_range dev = true) ->
  exists out, build_output now (PDict d) = Return out.
Proof.
  intros H. unfold build_output.
  destruct (is_api_success (PDict d)) as [[|]|] eqn:Hok;
    [| eexists; reflexivity
     | rewrite is_api_success_dict in Hok; discriminate ].
  cbn [bind].
  assert (exists rec, extract_live_data (PDict d) = Return rec) as [rec Hrec].
  { destruct H as [H|[H|(dev & Hdev & Hrange)]]; [discriminate| |].
    - exists []. unfold extract_live_data. rewrite Hok.
      cbn [bind negb py_get]. now rewrite H.
    - destruct (truthy (get d "data" (PList []))) eqn:Htruthy.
      + destruct (extract_live_data_returns d dev Hok Htruthy Hdev Hrange)
          as (rec & Hrec & _). now exists rec.
      + exists []. unfold extract_live_data. rewrite Hok.
        cbn [bind negb py_get]. now rewrite Htruthy. }
  rewrite Hrec. eexists; reflexivity.
Qed.

(** C6.  The normaliser is not total.  A raw field that is not numeric,
    as [pac = "N/A"], does coerce to the default 0; but an integer beyond
    the range of the floats, or an infinite [currentState], makes [float]
    or [int] raise [OverflowError], which [safe_float] and [safe_int] do
    not catch: the exception leaves [extract_live_data]. *)
Theorem C6_out_of_range_number_escapes_the_normaliser :
  extract_live_data (response_with_field "pac" (PInt (10 ^ 400)))
  = Raise (Exn OverflowError "int too large to convert to float")
  /\ extract_live_data
       (response_with_field "currentState" (PFloat (S754_infinity false)))
     = Raise (Exn OverflowError "cannot convert float infinity to integer")
  /\ safe_float (PInt (10 ^ 400)) (PInt 0)
     = Raise (Exn OverflowError "int too large to convert to float")
  /\ safe_float (PStr "N/A") (PInt 0) = Return (PInt 0)
  /\ (exists rec,
         extract_live_data (response_with_field "pac" (PStr "N/A"))
         = Return rec
         /\ lookup "pac" rec = Some (PInt 0)
         /\ lookup "power" rec = Some (PInt 0)).
Proof.
  split; [vm_compute; reflexivity|]. split; [vm_compute; reflexivity|].
  split; [vm_compute; reflexivity|]. split; [vm_compute; reflexivity|].
  eexists. split; [vm_compute; reflexivity|]. split; reflexivity.
Qed.

(** C8.  The printed object does not always have the keys of the default
    output.  On the successful response whose device reports an integer
    [pac] beyond the range of the floats, the exception that leaves the
    normaliser reaches the handler of [main], which prints the error
    object, with seven keys, [pac] not among them, and exits with
    status 1. *)
Theorem C8_error_object_printed_when_the_normaliser_raises :
  forall (self : AisweiSolarAPI) (now later : string),
    main self
         (fun _ _ => GetReturns
            {| status_code := 200; text := ""; headers := [];
               json := Return (response_with_field "pac"
                                                   (PInt (10 ^ 400))) |})
         now later
    = ([ PrintJson
           (PDict (error_data
                     (Exn OverflowError "int too large to convert to float")
                     later)) ], 1%Z)
    /\ keys (error_data
               (Exn OverflowError "int too large to convert to float") later)
       = ["error"; "timestamp"; "success"; "power"; "etoday"; "etotal";
          "status"]
    /\ mem "pac" (error_data
                    (Exn OverflowError "int too large to convert to float")
                    later) = false
    /\ keys (error_data
               (Exn OverflowError "int too large to convert to float") later)
       <> keys (default_output now).
Proof.
  intros self now later. split; [|split; [|split]].
  - unfold main, _make_request. cbv beta.
    cbn [status_code json Z.eqb Pos.eqb bind].
    assert (build_output now (response_with_field "pac" (PInt (10 ^ 400)))
            = Raise (Exn OverflowError "int too large to convert to float"))
      as -> by (vm_compute; reflexivity).
    reflexivity.
  - reflexivity.
  - reflexivity.
  - discriminate.
Qed.

(** * Further properties of the request builder *)

Module SplitFacts.
Import PyStr PyStrFacts.

(** Splitting distributes over a separator. *)
Lemma split_append_sep (c : ascii) (a b : string) :
  split c (a ++ String c b) = (split c a ++ split c b)%list.
Proof.
  induction a as [|x a IH]; simpl.
  - now rewrite Ascii.eqb_refl.
  - destruct (Ascii.eqb x c); [now rewrite IH|].
    rewrite IH. pose proof (split_not_nil c a) as Hn.
    destruct (split c a); [contradiction | reflexivity].
Qed.

(** No component holds the separator. *)
Lemma split_components_without (c : ascii) (s x : string) :
  In x (split c s) -> contains c x = false.
Proof.
  revert x. induction s as [|a s IH]; simpl; intros x.
  - intros [<-|[]]. reflexivity.
  - destruct (Ascii.eqb a c) eqn:E.
    + intros [<-|H]; [reflexivity | now apply IH].
    + pose proof (split_not_nil c s) as Hn.
      destruct (split c s) as [|h t]; [contradiction|].
      intros [<-|H].
      * simpl. rewrite E. apply IH. now left.
      * apply IH. now right.
Qed.

(** A component holds no more of a character than the whole string. *)
Lemma split_components_count (c c' : ascii) (s x : string) :
  In x (split c s) -> count c' x <= count c' s.
Proof.
  revert x. induction s as [|a s IH]; simpl; intros x.
  - intros [<-|[]]. simpl. lia.
  - destruct (Ascii.eqb a c) eqn:E.
    + intros [<-|H]; [simpl; lia|]. specialize (IH x H). lia.
    + pose proof (split_not_nil c s) as Hn.
      destruct (split c s) as [|h t]; [contradiction|].
      intros [<-|H].
      * simpl. specialize (IH h (or_introl eq_refl)). lia.
      * specialize (IH x (or_intror H)). lia.
Qed.

(** Splitting undoes joining, when no joined string holds the
    separator. *)
Lemma split_join (c : ascii) (l : list string) :
  l <> [] -> (forall x, In x l -> contains c x = false) ->
  split c (join (String c EmptyString) l) = l.
Proof.
  unfold join. induction l as [|x l IH]; [contradiction|].
  intros _ H. destruct l as [|y l].
  - simpl. apply split_without. apply H. now left.
  - change (String.concat (String c EmptyString) (x :: y :: l))
      with (x ++ String c (String.concat (String c EmptyString) (y :: l))).
    rewrite split_at_first by (apply H; now left).
    f_equal. apply IH; [discriminate|].
    intros z Hz. apply H. now right.
Qed.

(** The first component of a string that starts with a text free of the
    separator. *)
Lemma hd_split_append (c : ascii) (q r : string) :
  contains c q = false ->
  hd EmptyString (split c (q ++ r)) = q ++ hd EmptyString (split c r).
Proof.
  induction q as [|x q IH]; simpl; [reflexivity|].
  destruct (Ascii.eqb x c); [discriminate|]. intros H.
  specialize (IH H). pose proof (split_not_nil c (q ++ r)) as Hn.
  destruct (split c (q ++ r)) as [|h t]; [contradiction|].
  simpl in *. now rewrite IH.
Qed.

Lemma hd_split_without (c : ascii) (s : string) :
  contains c (hd EmptyString (split c s)) = false.
Proof.
  apply (split_components_without c s).
  pose proof (split_not_nil c s) as Hn.
  destruct (split c s); [contradiction | now left].
Qed.

(** A character that occurs neither in the separator nor in the joined
    strings does not occur in the join. *)
Lemma count_join_zero (c : ascii) (sep : string) (l : list string) :
  count c sep = 0 -> (forall x, In x l -> count c x = 0) ->
  count c (join sep l) = 0.
Proof.
  unfold join. intros Hsep. induction l as [|x l IH]; intros H;
    [reflexivity|].
  destruct l as [|y l].
  - apply H. now left.
  - change (String.concat sep (x :: y :: l))
      with (x ++ sep ++ String.concat sep (y :: l)).
    rewrite !count_append, Hsep, (H x (or_introl eq_refl)).
    rewrite IH; [reflexivity|]. intros z Hz. apply H. now right.
Qed.

End SplitFacts.

Module CanonicalFacts.
Import PyStr PyStrFacts SortedFacts RequestFacts SplitFacts.

Lemma add_auth_params_eq (self : AisweiSolarAPI) (endpoint : string) :
  add_auth_params self endpoint
  = endpoint ++ (if contains "?" endpoint then "&" else "?")
             ++ auth_query self.
Proof.
  unfold add_auth_params, auth_query. rewrite !append_assoc. reflexivity.
Qed.

Lemma sorted_in (x : string) (l : list string) :
  In x (sorted l) -> In x l.
Proof. apply Permutation_in. symmetry. apply sorted_perm. Qed.

Lemma sorted_not_nil (l : list string) : l <> [] -> sorted l <> [].
Proof.
  intros Hl Hs. apply Hl. apply Permutation_nil. symmetry.
  rewrite <- Hs. apply sorted_perm.
Qed.

Lemma sorted_idempotent (l : list string) : sorted (sorted l) = sorted l.
Proof. apply sorted_spec; [apply sorted_Sorted | reflexivity]. Qed.

(** Two lists with the same elements sort to the same list. *)
Lemma sorted_permutation (l l' : list string) :
  Permutation l l' -> sorted l = sorted l'.
Proof.
  intros P. apply sorted_spec; [apply sorted_Sorted|].
  rewrite P. apply sorted_perm.
Qed.

(** The shape of what the sort step returns on a string cut at its first
    question mark: the sorted components are free of question marks and
    are what splitting the new query string gives back. *)
Lemma sort_params_shape (a q : string) :
  contains "?" a = false ->
  exists L,
    L = sorted (split "&" (hd EmptyString (split "?" q)))
    /\ sort_params (a ++ String "?" q) = a ++ String "?" (join "&" L)
    /\ count "?" (join "&" L) = 0
    /\ split "&" (join "&" L) = L.
Proof.
  intros Ha. eexists. split; [reflexivity|].
  split; [now apply sort_params_cut|]. split.
  - apply count_join_zero; [reflexivity|].
    intros x Hx. apply sorted_in in Hx.
    pose proof (split_components_count "&" "?" _ _ Hx) as Hle.
    pose proof (hd_split_without "?" q) as Hh.
    apply contains_false_count in Hh. lia.
  - apply split_join.
    + apply sorted_not_nil, split_not_nil.
    + intros x Hx. apply sorted_in in Hx.
      now apply split_components_without in Hx.
Qed.

(** The endpoint with its parameters, cut at its first question mark. *)
Lemma add_auth_params_cut (self : AisweiSolarAPI) (endpoint : string) :
  exists a q,
    add_auth_params self endpoint = a ++ String "?" q
    /\ contains "?" a = false
    /\ a = hd EmptyString (split "?" endpoint)
    /\ (contains "?" endpoint = false -> a = endpoint /\ q = auth_query self)
    /\ (forall q0, endpoint = a ++ String "?" q0 ->
                   q = q0 ++ String "&" (auth_query self)).
Proof.
  rewrite add_auth_params_eq.
  destruct (contains "?" endpoint) eqn:E.
  - assert (1 <= count "?" endpoint) as Hc.
    { destruct (count "?" endpoint) eqn:C; [|lia].
      apply contains_false_count in C. congruence. }
    destruct (cut_at_first "?" endpoint Hc) as (a & q0 & -> & Ha & _).
    exists a, (q0 ++ String "&" (auth_query self)).
    split; [now rewrite append_assoc|]. split; [exact Ha|].
    split; [now rewrite (split_at_first _ _ _ Ha)|].
    split; [discriminate|].
    intros q1 Hq. f_equal.
    assert (split "?" (a ++ String "?" q0) = split "?" (a ++ String "?" q1))
      as Hs by now rewrite Hq.
    rewrite !(split_at_first _ _ _ Ha) in Hs.
    injection Hs as Hs. apply (f_equal (join "?")) in Hs.
    now rewrite !join_split in Hs.
  - exists endpoint, (auth_query self).
    split; [reflexivity|]. split; [exact E|].
    split; [now rewrite (split_without _ _ E)|].
    split; [now split|].
    intros q0 Hq. exfalso. rewrite Hq, contains_append in E.
    simpl in E. rewrite orb_true_r in E. discriminate.
Qed.

Lemma plain_parts (s : string) :
  plain s = true -> contains "?" s = false /\ contains "&" s = false.
Proof.
  unfold plain. intros H. apply andb_true_iff in H as [H1 H2].
  apply negb_true_iff in H1, H2. now split.
Qed.

(** With plain credentials the three parameters are three components,
    free of question marks. *)
Lemma auth_query_plain (self : AisweiSolarAPI) :
  plain_credentials self = true ->
  contains "?" (auth_query self) = false
  /\ split "&" (auth_query self)
     = ["apikey=" ++ api_key self; "token=" ++ token self;
        "isnos=" ++ sn self].
Proof.
  unfold plain_credentials. intros H.
  apply andb_true_iff in H as [H Hs]. apply andb_true_iff in H as [Hk Ht].
  apply plain_parts in Hk as [Hk1 Hk2], Ht as [Ht1 Ht2], Hs as [Hs1 Hs2].
  unfold auth_query. split.
  - rewrite !contains_append, Hk1, Ht1, Hs1. reflexivity.
  - change ("apikey=" ++ api_key self ++ "&token=" ++ token self
                      ++ "&isnos=" ++ sn self)
      with ("apikey=" ++ api_key self
              ++ String "&" ("token=" ++ token self
                               ++ String "&" ("isnos=" ++ sn self))).
    rewrite <- append_assoc.
    rewrite split_at_first
      by (rewrite contains_append, Hk2; reflexivity).
    rewrite <- append_assoc.
    rewrite split_at_first
      by (rewrite contains_append, Ht2; reflexivity).
    rewrite split_without
      by (rewrite contains_append, Hs2; reflexivity).
    reflexivity.
Qed.

End CanonicalFacts.

Import SplitFacts CanonicalFacts.

(** With plain credentials and an endpoint of at most one question mark,
    the canonical endpoint is the path, a question mark, and the sorted
    list of the endpoint's parameters and the three authentication
    parameters, joined by ampersands. *)
Lemma canonical_endpoint_plain (self : AisweiSolarAPI) (endpoint : string) :
  count "?" endpoint <= 1 -> plain_credentials self = true ->
  canonical_endpoint self endpoint
  = path_of endpoint ++ "?"
      ++ join "&" (sorted (params_of endpoint
                             ++ auth_params self)%list).
Proof.
  intros Hc Hp. destruct (auth_query_plain self Hp) as [Hq Hs].
  unfold canonical_endpoint. rewrite add_auth_params_eq.
  destruct (contains "?" endpoint) eqn:E.
  - assert (1 <= count "?" endpoint) as Hc'.
    { destruct (count "?" endpoint) eqn:C; [|lia].
      apply contains_false_count in C. congruence. }
    destruct (cut_at_first "?" endpoint Hc') as (a & q & -> & Ha & Hcnt).
    assert (contains "?" q = false) as Hq0
        by (apply contains_false_count; lia).
    rewrite append_assoc.
    change (String "?" q ++ "&" ++ auth_query self)
      with (String "?" (q ++ String "&" (auth_query self))).
    rewrite (sort_params_cut _ _ Ha).
    rewrite (split_without "?" (q ++ String "&" (auth_query self)))
      by (rewrite contains_append, Hq0; simpl; exact Hq).
    cbn [hd]. rewrite split_append_sep, Hs.
    unfold path_of, params_of.
    rewrite (split_at_first _ _ _ Ha), (split_without _ _ Hq0).
    reflexivity.
  - change (endpoint ++ "?" ++ auth_query self)
      with (endpoint ++ String "?" (auth_query self)).
    rewrite (sort_params_cut _ _ E), (split_without _ _ Hq).
    cbn [hd]. rewrite Hs. unfold path_of, params_of.
    rewrite (split_without _ _ E). reflexivity.
Qed.

Lemma canonical_endpoint_count (self : AisweiSolarAPI) (endpoint : string) :
  count "?" (canonical_endpoint self endpoint) = 1.
Proof.
  destruct (add_auth_params_cut self endpoint) as (a & q & Heq & Ha & _).
  unfold canonical_endpoint. rewrite Heq.
  destruct (sort_params_shape a q Ha) as (L & _ & -> & Hz & _).
  rewrite count_append. apply contains_false_count in Ha.
  simpl. lia.
Qed.

(** X1.  Whatever the endpoint and the credentials, the canonical
    endpoint holds exactly one question mark: the test [len(s1) > 1] of
    the sort step never fails, and what the sort step keeps is free of
    question marks. *)
Theorem canonical_endpoint_has_one_question_mark :
  forall (self : AisweiSolarAPI) (endpoint : string),
    count "?" (canonical_endpoint self endpoint) = 1
    /\ 2 <= length (split "?" (add_auth_params self endpoint)).
Proof.
  intros self endpoint.
  split.
  - apply canonical_endpoint_count.
  - rewrite length_split. pose proof (add_auth_params_has_query self endpoint).
    lia.
Qed.

(** X2.  The canonical endpoint keeps the path of the endpoint: what
    stands before the first question mark is never touched. *)
Theorem canonical_endpoint_keeps_the_path :
  forall (self : AisweiSolarAPI) (endpoint : string),
    path_of (canonical_endpoint self endpoint) = path_of endpoint.
Proof.
  intros self endpoint.
  destruct (add_auth_params_cut self endpoint)
    as (a & q & Heq & Ha & Hpath & _).
  unfold canonical_endpoint. rewrite Heq.
  destruct (sort_params_shape a q Ha) as (L & _ & -> & _ & _).
  unfold path_of at 1. rewrite (split_at_first _ _ _ Ha).
  cbn [hd]. exact Hpath.
Qed.

(** X3.  The sort step is idempotent: sorting the parameters of a string
    it has returned changes nothing. *)
Theorem sort_params_idempotent :
  forall endpoint : string,
    sort_params (sort_params endpoint) = sort_params endpoint.
Proof.
  intros e. destruct (contains "?" e) eqn:E.
  - assert (1 <= count "?" e) as Hc.
    { destruct (count "?" e) eqn:C; [|lia].
      apply contains_false_count in C. congruence. }
    destruct (cut_at_first "?" e Hc) as (a & q & -> & Ha & _).
    destruct (sort_params_shape a q Ha) as (L & HL & -> & Hz & Hs).
    rewrite (sort_params_cut _ _ Ha).
    rewrite (split_without "?" (join "&" L))
      by now apply contains_false_count.
    cbn [hd]. rewrite Hs. rewrite HL at 1. now rewrite sorted_idempotent, <- HL.
  - now rewrite !(sort_params_without _ E).
Qed.

(** X4.  The order in which the caller writes the parameters of the
    endpoint does not matter: two endpoints with the same path and the
    same parameters, in any order, give the same canonical endpoint, the
    same URL and the same headers, signature included. *)
Theorem canonical_endpoint_ignores_parameter_order :
  forall (self : AisweiSolarAPI) (path q1 q2 : string),
    contains "?" path = false ->
    contains "?" q1 = false -> contains "?" q2 = false ->
    Permutation (split "&" q1) (split "&" q2) ->
    canonical_endpoint self (path ++ "?" ++ q1)
    = canonical_endpoint self (path ++ "?" ++ q2)
    /\ url self (path ++ "?" ++ q1) = url self (path ++ "?" ++ q2)
    /\ request_headers self (path ++ "?" ++ q1)
       = request_headers self (path ++ "?" ++ q2).
Proof.
  intros self path q1 q2 Hp H1 H2 P.
  assert (forall q, contains "?" q = false ->
            canonical_endpoint self (path ++ "?" ++ q)
            = path ++ "?"
                ++ join "&" (sorted (split "&" q
                     ++ split "&" (hd EmptyString
                                     (split "?" (auth_query self))))%list))
    as Hcanon.
  { intros q Hq. unfold canonical_endpoint. rewrite add_auth_params_eq.
    assert (contains "?" (path ++ "?" ++ q) = true) as ->.
    { rewrite contains_append. simpl. apply orb_true_r. }
    rewrite append_assoc.
    change (("?" ++ q) ++ "&" ++ auth_query self)
      with (String "?" (q ++ "&" ++ auth_query self)).
    rewrite <- (append_assoc q "&" (auth_query self)).
    rewrite (sort_params_cut _ _ Hp).
    rewrite hd_split_append
      by (rewrite contains_append, Hq; reflexivity).
    rewrite append_assoc.
    change ("&" ++ hd EmptyString (split "?" (auth_query self)))
      with (String "&" (hd EmptyString (split "?" (auth_query self)))).
    now rewrite split_append_sep. }
  assert (canonical_endpoint self (path ++ "?" ++ q1)
          = canonical_endpoint self (path ++ "?" ++ q2)) as Heq.
  { rewrite (Hcanon q1 H1), (Hcanon q2 H2). do 3 f_equal.
    apply sorted_permutation. now apply Permutation_app_tail. }
  split; [exact Heq|].
  unfold url, request_headers, signature, string_to_sign.
  now rewrite Heq.
Qed.

Lemma canonical_endpoint_ignores_parameter_order_witness :
  canonical_endpoint (init "K" "S" "A" "T" "N")
                     ("/pro/getPlantOutputPro" ++ "?"
                        ++ "period=bydays&date=2026-03-07")
  = canonical_endpoint (init "K" "S" "A" "T" "N")
                       ("/pro/getPlantOutputPro" ++ "?"
                          ++ "date=2026-03-07&period=bydays").
Proof.
  apply (canonical_endpoint_ignores_parameter_order
           (init "K" "S" "A" "T" "N") "/pro/getPlantOutputPro"
           "period=bydays&date=2026-03-07" "date=2026-03-07&period=bydays");
    try reflexivity.
  simpl. apply perm_swap.
Defined.

(** X5.  With plain credentials (no question mark and no ampersand in the
    API key, the token and the serial number) and an endpoint of at most
    one question mark, the parameters the request carries are exactly the
    endpoint's own parameters and [apikey], [token] and [isnos] with the
    values of the credentials, in ascending order: none is lost, none is
    added. *)
Theorem canonical_endpoint_carries_the_credentials :
  forall (self : AisweiSolarAPI) (endpoint : string),
    count "?" endpoint <= 1 -> plain_credentials self = true ->
    params_of (canonical_endpoint self endpoint)
    = sorted (params_of endpoint
                ++ auth_params self)%list
    /\ In ("apikey=" ++ api_key self)
          (params_of (canonical_endpoint self endpoint))
    /\ In ("token=" ++ token self)
          (params_of (canonical_endpoint self endpoint))
    /\ In ("isnos=" ++ sn self)
          (params_of (canonical_endpoint self endpoint))
    /\ length (params_of (canonical_endpoint self endpoint))
       = length (params_of endpoint) + 3.
Proof.
  intros self endpoint Hc Hp.
  assert (params_of (canonical_endpoint self endpoint)
          = sorted (params_of endpoint ++ auth_params self)%list)
    as Hparams.
  { pose proof (canonical_endpoint_count self endpoint) as Hone.
    rewrite (canonical_endpoint_plain self endpoint Hc Hp) in *.
    change (path_of endpoint ++ "?"
              ++ join "&" (sorted (params_of endpoint
                                     ++ auth_params self)%list))
      with (path_of endpoint
              ++ String "?" (join "&" (sorted (params_of endpoint
                                         ++ auth_params self)%list)))
      in *.
    rewrite count_append in Hone. simpl in Hone.
    rewrite CatalogFacts.params_of_cut.
    - apply split_join.
      + apply sorted_not_nil. destruct (params_of endpoint); discriminate.
      + intros x Hx. apply sorted_in in Hx. apply in_app_or in Hx.
        destruct (auth_query_plain self Hp) as [_ Hauth].
        destruct Hx as [Hx|Hx].
        * unfold params_of in Hx.
          destruct (split "?" endpoint) as [|p [|q0 t]];
            try contradiction.
          now apply split_components_without in Hx.
        * unfold auth_params in Hx. rewrite <- Hauth in Hx.
          now apply split_components_without in Hx.
    - apply hd_split_without.
    - apply contains_false_count. lia. }
  rewrite Hparams.
  assert (forall x,
             In x (auth_params self) ->
             In x (sorted (params_of endpoint
                     ++ auth_params self)%list)) as Hin.
  { intros x Hx. apply (Permutation_in _ (sorted_perm _)).
    apply in_or_app. now right. }
  split; [reflexivity|].
  split; [apply Hin; simpl; tauto|].
  split; [apply Hin; simpl; tauto|].
  split; [apply Hin; simpl; tauto|].
  rewrite <- (Permutation_length (sorted_perm _)).
  rewrite length_app. reflexivity.
Qed.

Lemma canonical_endpoint_carries_the_credentials_witness :
  params_of (canonical_endpoint (init "K" "S" "A" "T" "N")
               "/pro/getInverterETodayPro?date=2026-03-07")
  = sorted (params_of "/pro/getInverterETodayPro?date=2026-03-07"
              ++ auth_params (init "K" "S" "A" "T" "N"))%list.
Proof.
  assert (count "?" "/pro/getInverterETodayPro?date=2026-03-07" <= 1) as H1
      by (vm_compute; lia).
  exact (proj1 (canonical_endpoint_carries_the_credentials
                  (init "K" "S" "A" "T" "N")
                  "/pro/getInverterETodayPro?date=2026-03-07"
                  H1 eq_refl)).
Defined.

(** ** The URL of each operation *)

Lemma strftime_count (today : date) (c : ascii) :
  PyParse.is_digit c = false -> Ascii.eqb "-" c = false ->
  count c (strftime_Y_m_d today) = 0.
Proof.
  intros Hd Hm. apply contains_false_count.
  now apply CatalogFacts.strftime_without.
Qed.

Lemma params_of_dated (path key : string) (today : date) :
  contains "?" path = false ->
  contains "?" key = false -> contains "&" key = false ->
  params_of (path ++ String "?" (key ++ strftime_Y_m_d today))
  = [key ++ strftime_Y_m_d today].
Proof.
  intros Hp Hk1 Hk2. rewrite CatalogFacts.params_of_cut; [|exact Hp|].
  - apply split_without. rewrite contains_append, Hk2.
    now apply CatalogFacts.strftime_without.
  - rewrite contains_append, Hk1.
    now apply CatalogFacts.strftime_without.
Qed.

Lemma operation_endpoint_count (op : operation) (today : date) :
  count "?" (operation_endpoint op today) <= 1.
Proof.
  destruct op; cbn [operation_endpoint];
    rewrite ?count_append, ?(strftime_count today "?") by reflexivity;
    simpl; lia.
Qed.

(** X6.  With plain credentials, the URL each operation asks for: the
    base URL, [/pro/] and the name of the operation, a question mark, and
    the parameters in ascending order, which is [apikey], [isnos],
    [token] for a bare path, with [date] after [apikey] for
    [getInverterETodayPro], and with [date] after [apikey] and
    [period=bydays] after [isnos] for [getPlantOutputPro]. *)
Theorem operation_url :
  forall (op : operation) (self : AisweiSolarAPI) (today : date),
    plain_credentials self = true ->
    url self (operation_endpoint op today)
    = base_url self ++ "/pro/" ++ operation_name op ++ "?"
        ++ join "&"
             match op with
             | getPlantOutputPro =>
                 ["apikey=" ++ api_key self;
                  "date=" ++ strftime_Y_m_d today;
                  "isnos=" ++ sn self;
                  "period=bydays";
                  "token=" ++ token self]
             | getInverterETodayPro =>
                 ["apikey=" ++ api_key self;
                  "date=" ++ strftime_Y_m_d today;
                  "isnos=" ++ sn self;
                  "token=" ++ token self]
             | _ =>
                 ["apikey=" ++ api_key self;
                  "isnos=" ++ sn self;
                  "token=" ++ token self]
             end.
Proof.
  intros op self today Hp. unfold url. f_equal.
  rewrite (canonical_endpoint_plain self _
             (operation_endpoint_count op today) Hp).
  assert (path_of (operation_endpoint op today)
          = "/pro/" ++ operation_name op) as ->
      by (destruct op; reflexivity).
  rewrite append_assoc. do 4 f_equal.
  destruct op;
    try (change (params_of (operation_endpoint _ today)) with (@nil string);
         reflexivity).
  - change (operation_endpoint getPlantOutputPro today)
      with ("/pro/getPlantOutputPro"
              ++ String "?" ("period=bydays"
                   ++ String "&" ("date=" ++ strftime_Y_m_d today))).
    rewrite CatalogFacts.params_of_cut;
      [| reflexivity
       | cbn [append contains Ascii.eqb Bool.eqb];
         now apply CatalogFacts.strftime_without ].
    rewrite split_at_first by reflexivity.
    rewrite split_without
      by (cbn [append contains Ascii.eqb Bool.eqb];
          now apply CatalogFacts.strftime_without).
    reflexivity.
  - change (operation_endpoint getInverterETodayPro today)
      with ("/pro/getInverterETodayPro"
              ++ String "?" ("date=" ++ strftime_Y_m_d today)).
    rewrite params_of_dated by reflexivity.
    reflexivity.
Qed.

Lemma operation_url_witness :
  url (init "K" "S" "A" "T" "N")
      (operation_endpoint getPlantOutputPro
                          {| year := 2026; month := 3; day := 7 |})
  = "https://eu-api-genergal.aisweicloud.com/pro/getPlantOutputPro"
      ++ "?apikey=A&date=2026-03-07&isnos=N&period=bydays&token=T".
Proof.
  exact (operation_url getPlantOutputPro (init "K" "S" "A" "T" "N")
           {| year := 2026; month := 3; day := 7 |} eq_refl).
Defined.

(** ** The size of the signature *)

Module DigestFacts.

Lemma round_length (st : list N) (kw : N * N) :
  length (SHA256.round st kw) = length st.
Proof.
  unfold SHA256.round.
  destruct st as [|a [|b [|c [|d [|e [|f [|g [|h [|i st]]]]]]]]];
    reflexivity.
Qed.

Lemma rounds_length (kws : list (N * N)) (st : list N) :
  length (fold_left SHA256.round kws st) = length st.
Proof.
  revert st. induction kws as [|kw kws IH]; intros st; simpl;
    [reflexivity|]. now rewrite IH, round_length.
Qed.

Lemma compress_length (h block : list N) :
  length (SHA256.compress h block) = length h.
Proof.
  unfold SHA256.compress.
  rewrite length_map, length_combine, rounds_length. apply Nat.min_id.
Qed.

Lemma compress_all_length (blocks : list (list N)) (h : list N) :
  length (fold_left SHA256.compress blocks h) = length h.
Proof.
  revert h. induction blocks as [|b blocks IH]; intros h; simpl;
    [reflexivity|]. now rewrite IH, compress_length.
Qed.

Lemma bytes_of_word_length (n : nat) (w : N) :
  length (SHA256.bytes_of_word n w) = n.
Proof.
  unfold SHA256.bytes_of_word.
  now rewrite length_map, length_rev, length_seq.
Qed.

Lemma flat_map_words_length (h : list N) :
  length (flat_map (SHA256.bytes_of_word 4) h) = 4 * length h.
Proof.
  induction h as [|w h IH]; [reflexivity|].
  cbn [flat_map]. rewrite length_app, bytes_of_word_length, IH.
  simpl. lia.
Qed.

(** A SHA-256 digest has thirty-two bytes. *)
Lemma sha256_length (msg : list N) : length (SHA256.digest_N msg) = 32.
Proof.
  unfold SHA256.digest_N.
  now rewrite flat_map_words_length, compress_all_length.
Qed.

Lemma hmac_length (key msg : Bytes.bytes) :
  length (HMAC.digest key msg) = 32.
Proof.
  unfold HMAC.digest, HMAC.digest_N.
  now rewrite length_map, sha256_length.
Qed.

(** Base64 writes four characters for every three bytes or fewer. *)
Lemma encode_N_length (b : list N) :
  length (Base64.encode_N b) = 4 * Nat.div (length b + 2) 3.
Proof.
  assert (forall l : list N,
             length (Base64.encode_N l) = 4 * Nat.div (length l + 2) 3
             /\ (forall x, length (Base64.encode_N (x :: l))
                           = 4 * Nat.div (length (x :: l) + 2) 3)
             /\ (forall x y, length (Base64.encode_N (x :: y :: l))
                             = 4 * Nat.div (length (x :: y :: l) + 2) 3))
    as H.
  { induction l as [|z l (IH0 & IH1 & IH2)].
    - repeat split; reflexivity.
    - split; [apply IH1|]. split; [intros x; apply IH2|].
      intros x y. cbn [Base64.encode_N length]. rewrite IH0.
      replace (S (S (S (length l))) + 2) with (length l + 2 + 1 * 3) by lia.
      rewrite Nat.div_add by discriminate. lia. }
  apply H.
Qed.

Lemma decode_ascii_length (b : Bytes.bytes) :
  String.length (Bytes.decode_ascii b) = length b.
Proof. induction b as [|x b IH]; simpl; [reflexivity | now rewrite IH]. Qed.

End DigestFacts.

(** X7.  The signature put in the [X-Ca-Signature] header always has
    forty-four characters, the base64 text of a digest of thirty-two
    bytes, whatever the credentials and the endpoint. *)
Theorem signature_has_44_characters :
  forall (self : AisweiSolarAPI) (endpoint : string),
    String.length (signature self endpoint) = 44
    /\ header "X-Ca-Signature" (request_headers self endpoint)
       = Some (signature self endpoint).
Proof.
  intros self endpoint. split; [|reflexivity].
  unfold signature, Base64.b64encode.
  rewrite DigestFacts.decode_ascii_length, DigestFacts.encode_N_length.
  now rewrite length_map, DigestFacts.hmac_length.
Qed.

(** * Further properties of the normaliser *)

(** X8.  The two safe conversions let exactly one kind of exception
    through.  [safe_float] raises if and only if its argument is an int
    whose nearest float is an infinity, [safe_int] if and only if its
    argument is an infinite float; the exception is an [OverflowError].
    On every other argument they return: a float or the default for
    [safe_float], an int or the default for [safe_int]. *)
Theorem safe_conversions_raise_only_on_overflow :
  forall v default : pyval,
    ((exists e, safe_float v default = Raise e)
     <-> exists z s, v = PInt z /\ PyFloat.of_Z z = S754_infinity s)
    /\ (forall e, safe_float v default = Raise e ->
                  exn_cls e = OverflowError)
    /\ (forall x, safe_float v default = Return x ->
                  x = default \/ exists f, x = PFloat f)
    /\ ((exists e, safe_int v default = Raise e)
        <-> exists s, v = PFloat (S754_infinity s))
    /\ (forall e, safe_int v default = Raise e ->
                  exn_cls e = OverflowError)
    /\ (forall x, safe_int v default = Return x ->
                  x = default \/ exists z, x = PInt z).
Proof.
  intros v default.
  unfold safe_float, safe_int, catching_value_type.
  destruct v as [|b|z|f|s|l|d]; simpl.
  - repeat split; try (intros [e H]; discriminate);
      try (intros (? & ? & H & _); discriminate);
      try (intros (? & H); discriminate);
      try discriminate; intros x [= <-]; now left.
  - repeat split; try (intros [e H]; discriminate);
      try (intros (? & ? & H & _); discriminate);
      try (intros (? & H); discriminate);
      try discriminate; intros x [= <-]; right; eexists; reflexivity.
  - unfold PyFloat.of_int.
    destruct (PyFloat.of_Z z) as [s0|s0| |s0 m e0] eqn:E; simpl;
      repeat split;
      try (intros [e H]; discriminate);
      try (intros (? & ? & [= <-] & H); congruence);
      try (intros (? & H); discriminate);
      try discriminate;
      try (intros x [= <-]; right; eexists; reflexivity);
      try (intros e [= <-]; reflexivity).
    + intros _. exists z, s0. now split.
    + intros _. eexists; reflexivity.
  - destruct f as [s0|s0| |s0 m e0]; simpl; repeat split;
      try (intros [e H]; discriminate);
      try (intros (? & ? & H & _); discriminate);
      try (intros (? & H); discriminate);
      try discriminate;
      try (intros x [= <-]; right; eexists; reflexivity);
      try (intros x [= <-]; now left);
      try (intros e [= <-]; reflexivity).
    + intros _. eexists; reflexivity.
    + intros _. eexists; reflexivity.
  - destruct (PyParse.parse_float s), (PyParse.parse_int s); simpl;
      repeat split;
      try (intros [e H]; discriminate);
      try (intros (? & ? & H & _); discriminate);
      try (intros (? & H); discriminate);
      try discriminate;
      try (intros x [= <-]; right; eexists; reflexivity);
      try (intros x [= <-]; now left).
  - repeat split; try (intros [e H]; discriminate);
      try (intros (? & ? & H & _); discriminate);
      try (intros (? & H); discriminate);
      try discriminate; intros x [= <-]; now left.
  - repeat split; try (intros [e H]; discriminate);
      try (intros (? & ? & H & _); discriminate);
      try (intros (? & H); discriminate);
      try discriminate; intros x [= <-]; now left.
Qed.

Lemma safe_conversions_raise_only_on_overflow_witness :
  exn_cls (Exn OverflowError "int too large to convert to float")
  = OverflowError.
Proof.
  apply (proj1 (proj2 (safe_conversions_raise_only_on_overflow
                         (PInt (2 ^ 1024)) (PInt 0)))).
  vm_compute. reflexivity.
Defined.

Lemma success_not_a_record_key : ~ In "success" record_keys.
Proof. unfold record_keys. simpl. intuition discriminate. Qed.

(** X9.  What the normaliser returns is the empty mapping or a record of
    sixty-one keys, always the same, each once; [success] is not one of
    them, and all of them are keys of the default output of [main]. *)
Theorem normalised_record_has_fixed_keys :
  forall (resp : pyval) (rec : dict),
    extract_live_data resp = Return rec ->
    rec = []
    \/ (keys rec = record_keys
        /\ length rec = 61
        /\ NoDup (keys rec)
        /\ lookup "success" rec = None
        /\ forall now, incl (keys rec) (keys (default_output now))).
Proof.
  intros resp rec H.
  destruct (extract_live_data_keys resp rec H) as [-> | Hk]; [now left|].
  right. split; [exact Hk|]. split.
  - unfold keys in Hk. rewrite <- (length_map fst), Hk. reflexivity.
  - split; [rewrite Hk; apply record_keys_NoDup|].
    split; [apply lookup_None_keys; rewrite Hk;
            apply success_not_a_record_key|].
    intros now. rewrite Hk. apply record_keys_in_default_output.
Qed.

Lemma normalised_record_has_fixed_keys_witness :
  example_record = []
  \/ (keys example_record = record_keys
      /\ length example_record = 61
      /\ NoDup (keys example_record)
      /\ lookup "success" example_record = None
      /\ forall now, incl (keys example_record) (keys (default_output now))).
Proof.
  apply (normalised_record_has_fixed_keys example_response).
  vm_compute. reflexivity.
Defined.

(** The normaliser looks at a response through its success check and the
    first device of its [data] field only. *)
Lemma extract_live_data_congruence (d1 d2 : dict) :
  is_api_success (PDict d1) = is_api_success (PDict d2) ->
  truthy (get d1 "data" (PList [])) = truthy (get d2 "data" (PList [])) ->
  first_device (get d1 "data" (PList []))
  = first_device (get d2 "data" (PList [])) ->
  extract_live_data (PDict d1) = extract_live_data (PDict d2).
Proof.
  intros H1 H2 H3. unfold extract_live_data. rewrite H1.
  destruct (is_api_success (PDict d2)) as [[|]|];
    cbn [bind negb py_get]; try reflexivity.
  rewrite H2. destruct (truthy (get d2 "data" (PList [])));
    cbn [negb]; try reflexivity.
  now rewrite H3.
Qed.

Lemma is_api_success_set_data (d : dict) (v : pyval) :
  is_api_success (PDict (set "data" v d))
  = Return (py_eq_int (get d "status" PNone) 200
            && py_eq_str (get d "info" PNone) "success").
Proof.
  rewrite is_api_success_dict. unfold get, mem.
  rewrite lookup_set_same.
  rewrite !lookup_set_other by discriminate.
  now rewrite andb_true_r.
Qed.

Lemma get_set_data (d : dict) (v default : pyval) :
  get (set "data" v d) "data" default = v.
Proof. unfold get. now rewrite lookup_set_same. Qed.

(** X10.  Of a sequence of devices only the first is read: the devices
    after it change nothing; and a single record given in place of the
    sequence is read as the sequence of that one record. *)
Theorem only_the_first_device_is_read :
  forall (d : dict) (device : pyval) (others : list pyval),
    extract_live_data (PDict (set "data" (PList (device :: others)) d))
    = extract_live_data (PDict (set "data" (PList [device]) d))
    /\ forall dev : dict,
        dev <> [] ->
        extract_live_data (PDict (set "data" (PDict dev) d))
        = extract_live_data (PDict (set "data" (PList [PDict dev]) d)).
Proof.
  intros d device others. split.
  - apply extract_live_data_congruence;
      rewrite ?is_api_success_set_data, ?get_set_data; reflexivity.
  - intros dev Hdev. apply extract_live_data_congruence;
      rewrite ?is_api_success_set_data, ?get_set_data; try reflexivity.
    destruct dev; [contradiction | reflexivity].
Qed.

Lemma only_the_first_device_is_read_witness :
  extract_live_data
    (PDict (set "data" (PDict [("pac", PInt 5)])
              [("status", PInt 200); ("info", PStr "success")]))
  = extract_live_data
      (PDict (set "data" (PList [PDict [("pac", PInt 5)]])
                [("status", PInt 200); ("info", PStr "success")])).
Proof.
  apply (proj2 (only_the_first_device_is_read
                  [("status", PInt 200); ("info", PStr "success")]
                  PNone [])).
  discriminate.
Defined.

Lemma numeric_fields_NoDup : NoDup (map fst numeric_fields).
Proof.
  pose proof record_keys_NoDup as H. unfold record_keys in H.
  now apply NoDup_app_remove_l in H.
Qed.

(** Each entry of the table is computed from its own raw field and found
    under its own key. *)
Lemma numeric_entries_lookup (device : pyval)
  (fields : list (string * option positive)) (rest : dict)
  (k : string) (dv : option positive) :
  NoDup (map fst fields) -> In (k, dv) fields ->
  numeric_entries device fields = Return rest ->
  exists v, numeric_entry device k dv = Return v /\ lookup k rest = Some v.
Proof.
  revert rest. induction fields as [|[k' dv'] fields IH]; intros rest Hnd Hin;
    [contradiction|].
  cbn [numeric_entries].
  destruct (numeric_entry device k' dv') as [v'|] eqn:Hv'; [|discriminate].
  destruct (numeric_entries device fields) as [rest'|] eqn:Hrest';
    [|discriminate].
  cbn [bind]. intros [= <-]. simpl in Hnd.
  inversion Hnd as [|? ? Hnotin Hnd']; subst.
  destruct Hin as [[= -> ->]|Hin].
  - exists v'. split; [exact Hv'|]. simpl. now rewrite String.eqb_refl.
  - destruct (IH rest' Hnd' Hin eq_refl) as (v & Hv & Hl).
    exists v. split; [exact Hv|]. simpl.
    destruct (String.eqb_spec k' k) as [->|Hne]; [|exact Hl].
    exfalso. apply Hnotin. apply (in_map fst) in Hin. exact Hin.
Qed.

Lemma numeric_key_not_in_head (k : string) (dv : option positive) :
  In (k, dv) numeric_fields ->
  ~ In k ["power"; "device_name"; "timestamp"; "status"; "pac"].
Proof.
  intros Hin Hk. unfold numeric_fields in Hin. simpl in Hin.
  repeat (destruct Hin as [Hin|Hin];
          [injection Hin as <- <-; simpl in Hk; intuition discriminate|]).
  exact Hin.
Qed.

(** X11.  In a record the normaliser returns, each of the fifty-six
    entries of the table holds what [safe_float] makes of the raw field of
    the same name, divided by the divisor of the entry if it has one: a
    float, or the integer 0 when an undivided field is [None] or not
    numeric; a raw field the device does not have gives the float zero. *)
Theorem numeric_entries_of_the_record :
  forall (resp : pyval) (rec : dict) (k : string) (dv : option positive),
    extract_live_data resp = Return rec -> rec <> [] ->
    In (k, dv) numeric_fields ->
    exists devices dev x v,
      py_get resp "data" (PList []) = Return devices
      /\ first_device devices = Return (PDict dev)
      /\ safe_float (get dev k (PInt 0)) (PInt 0) = Return x
      /\ match dv with
         | Some n => py_truediv x n = Return v
         | None => v = x
         end
      /\ lookup k rec = Some v
      /\ (v = PInt 0 \/ exists f, v = PFloat f)
      /\ (dv <> None -> exists f, v = PFloat f)
      /\ (lookup k dev = None -> v = PFloat (S754_zero false)).
Proof.
  intros resp rec k dv H Hne Hin.
  destruct (extract_live_data_inv resp rec H)
    as [->|(devices & dev & pac & power & state & rest & _ & Hdata & _
             & Hdev & _ & _ & _ & Hrest & ->)]; [contradiction|].
  destruct (numeric_entries_lookup _ _ _ k dv numeric_fields_NoDup Hin Hrest)
    as (v & Hv & Hl).
  assert (small_divisor dv) as Hsmall.
  { pose proof numeric_fields_divisors as Hall.
    rewrite Forall_forall in Hall. exact (Hall (k, dv) Hin). }
  pose proof Hv as Hentry. unfold numeric_entry in Hv.
  cbn [py_get bind] in Hv.
  destruct (safe_float (get dev k (PInt 0)) (PInt 0)) as [x|] eqn:Hx;
    [|discriminate].
  cbn [bind] in Hv.
  exists devices, dev, x, v.
  split; [exact Hdata|]. split; [exact Hdev|]. split; [exact Hx|].
  assert (lookup k
            ([("power", power);
              ("device_name", get dev "sn" (PStr "Unknown"));
              ("timestamp", get dev "tim" (PStr ""));
              ("status",
               PStr (if py_eq_int state 1 then "Normal" else "Offline"));
              ("pac", pac)] ++ rest)%list = Some v) as Hlook.
  { pose proof (numeric_key_not_in_head k dv Hin) as Hnot.
    simpl in Hnot. cbn [lookup app].
    repeat match goal with
           | |- context [String.eqb ?a k] =>
               destruct (String.eqb_spec a k); [exfalso; tauto|]
           end.
    exact Hl. }
  pose proof (safe_float_shape _ _ Hx) as Hshape.
  destruct dv as [n|].
  - destruct (py_truediv_returns x n Hsmall Hshape) as [f Hf].
    rewrite Hf in Hv. injection Hv as <-.
    split; [exact Hf|]. split; [exact Hlook|].
    split; [right; eexists; reflexivity|].
    split; [intros _; eexists; reflexivity|].
    intros Hk. rewrite (numeric_entry_absent dev k _ Hsmall Hk) in Hentry.
    now injection Hentry as <-.
  - injection Hv as <-.
    split; [reflexivity|]. split; [exact Hlook|].
    split; [exact Hshape|]. split; [congruence|].
    intros Hk. rewrite (numeric_entry_absent dev k _ Hsmall Hk) in Hentry.
    now injection Hentry as <-.
Qed.

Lemma numeric_entries_of_the_record_witness :
  exists devices dev x v,
    py_get example_response "data" (PList []) = Return devices
    /\ first_device devices = Return (PDict dev)
    /\ safe_float (get dev "bat6" (PInt 0)) (PInt 0) = Return x
    /\ py_truediv x 100 = Return v
    /\ lookup "bat6" example_record = Some v
    /\ (v = PInt 0 \/ exists f, v = PFloat f)
    /\ (Some 100%positive <> None -> exists f, v = PFloat f)
    /\ (lookup "bat6" dev = None -> v = PFloat (S754_zero false)).
Proof.
  apply (numeric_entries_of_the_record example_response example_record
           "bat6" (Some 100%positive)).
  - vm_compute. reflexivity.
  - discriminate.
  - unfold numeric_fields. simpl. tauto.
Defined.

(** X12.  In a record the normaliser returns, the status is [Normal] or
    [Offline], never anything else, and [Offline] when the device has no
    [currentState] or a null one; the timestamp is the [tim] of the
    device, the empty string when it has none; the device name is
    [Unknown] when the device has no [sn], but a null [sn] is passed on
    as it is. *)
Theorem identity_and_status_of_the_record :
  forall (resp : pyval) (rec : dict),
    extract_live_data resp = Return rec -> rec <> [] ->
    exists devices dev,
      py_get resp "data" (PList []) = Return devices
      /\ first_device devices = Return (PDict dev)
      /\ (lookup "status" rec = Some (PStr "Normal")
          \/ lookup "status" rec = Some (PStr "Offline"))
      /\ (lookup "currentState" dev = None
          \/ lookup "currentState" dev = Some PNone ->
          lookup "status" rec = Some (PStr "Offline"))
      /\ lookup "timestamp" rec = Some (get dev "tim" (PStr ""))
      /\ (lookup "tim" dev = None ->
          lookup "timestamp" rec = Some (PStr ""))
      /\ (lookup "sn" dev = None ->
          lookup "device_name" rec = Some (PStr "Unknown"))
      /\ (lookup "sn" dev = Some PNone ->
          lookup "device_name" rec = Some PNone).
Proof.
  intros resp rec H Hne.
  destruct (extract_live_data_inv resp rec H)
    as [->|(devices & dev & pac & power & state & rest & _ & Hdata & _
             & Hdev & _ & _ & Hstate & _ & ->)]; [contradiction|].
  exists devices, dev.
  split; [exact Hdata|]. split; [exact Hdev|].
  split; [simpl; destruct (py_eq_int state 1); auto|].
  split.
  - intros Hcs. simpl.
    assert (state = PInt 0) as ->; [|reflexivity].
    unfold get in Hstate.
    destruct Hcs as [Hcs|Hcs]; rewrite Hcs in Hstate;
      now injection Hstate as <-.
  - split; [reflexivity|].
    split; [intros Ht; simpl; unfold get; now rewrite Ht|].
    split; intros Hs; simpl; unfold get; now rewrite Hs.
Qed.

Lemma identity_and_status_of_the_record_witness :
  exists devices dev,
    py_get example_response "data" (PList []) = Return devices
    /\ first_device devices = Return (PDict dev)
    /\ (lookup "status" example_record = Some (PStr "Normal")
        \/ lookup "status" example_record = Some (PStr "Offline"))
    /\ (lookup "currentState" dev = None
        \/ lookup "currentState" dev = Some PNone ->
        lookup "status" example_record = Some (PStr "Offline"))
    /\ lookup "timestamp" example_record = Some (get dev "tim" (PStr ""))
    /\ (lookup "tim" dev = None ->
        lookup "timestamp" example_record = Some (PStr ""))
    /\ (lookup "sn" dev = None ->
        lookup "device_name" example_record = Some (PStr "Unknown"))
    /\ (lookup "sn" dev = Some PNone ->
        lookup "device_name" example_record = Some PNone).
Proof.
  apply (identity_and_status_of_the_record example_response example_record).
  - vm_compute. reflexivity.
  - discriminate.
Defined.

(** * Properties of [main] *)

(** What [_make_request] prints is never a JSON object. *)
Lemma _make_request_prints_no_json (self : AisweiSolarAPI)
  (endpoint : string) (get : transport) :
  forallb (fun e => negb (is_json_event e))
          (fst (_make_request self endpoint get)) = true.
Proof.
  unfold _make_request.
  destruct (get (url self endpoint) (request_headers self endpoint))
    as [r|e].
  - destruct (status_code r =? 200)%Z; [destruct (json r)|]; reflexivity.
  - destruct (exn_cls e); reflexivity.
Qed.

Lemma build_output_failed_check (now : string) (resp : pyval) :
  is_api_success resp = Return false ->
  build_output now resp = Return (default_output now).
Proof. unfold build_output. now intros ->. Qed.

Lemma build_output_no_data (now : string) (d : dict) :
  is_api_success (PDict d) = Return true ->
  truthy (get d "data" (PList [])) = false ->
  build_output now (PDict d)
  = Return (set "success" (PBool true) (default_output now)).
Proof.
  intros Hok Hdata. unfold build_output, extract_live_data.
  rewrite Hok. cbn [bind negb py_get]. rewrite Hdata. reflexivity.
Qed.

Lemma lookup_Some_keys (k : string) (d : dict) :
  In k (keys d) -> exists v, lookup k d = Some v.
Proof.
  intros Hin. destruct (lookup k d) as [v|] eqn:E; [now exists v|].
  apply lookup_None_keys in E. contradiction.
Qed.

(** X13.  Whatever happens, [main] prints exactly one JSON object, and
    prints it last.  Either the exit status is 0 and the object has the
    keys of the default output, no more and no fewer; or the exit status
    is 1 and the object is the error object, with its seven keys and
    [success] false. *)
Theorem main_prints_one_json_object :
  forall (self : AisweiSolarAPI) (get : transport) (now later : string),
    exists printed obj code,
      main self get now later = (printed ++ [PrintJson (PDict obj)], code)%list
      /\ forallb (fun e => negb (is_json_event e)) printed = true
      /\ ((code = 0%Z /\ keys obj = keys (default_output now))
          \/ (code = 1%Z /\ keys obj = error_keys
              /\ lookup "success" obj = Some (PBool false)
              /\ lookup "timestamp" obj = Some (PStr later))).
Proof.
  intros self get now later. unfold main.
  pose proof (_make_request_prints_no_json self "/pro/getLastTsDataPro" get)
    as Hprinted.
  destruct (_make_request self "/pro/getLastTsDataPro" get)
    as [printed answer].
  cbn [fst] in Hprinted.
  destruct answer as [live_response|e]; cbn [bind].
  - destruct (build_output now live_response) as [out|e] eqn:Hout.
    + exists printed, out, 0%Z. split; [reflexivity|].
      split; [exact Hprinted|]. left. split; [reflexivity|].
      now apply build_output_keys in Hout.
    + exists printed, (error_data e later), 1%Z.
      split; [reflexivity|]. split; [exact Hprinted|].
      right. repeat split.
  - exists printed, (error_data e later), 1%Z.
    split; [reflexivity|]. split; [exact Hprinted|].
    right. repeat split.
Qed.

(** X14.  When the HTTP exchange fails (the transport fails, the status
    is not 200, or the body does not parse), [main] prints the default
    output as it is, with [success] false and the time read at the start,
    and exits with status 0: each of the three error objects of
    [_make_request] fails the success check. *)
Theorem main_after_http_failure :
  forall (self : AisweiSolarAPI) (get : transport) (now later : string),
    http_failure (get (url self "/pro/getLastTsDataPro")
                      (request_headers self "/pro/getLastTsDataPro")) ->
    (exists d,
        snd (_make_request self "/pro/getLastTsDataPro" get)
        = Return (PDict d)
        /\ is_api_success (PDict d) = Return false)
    /\ main self get now later
       = (fst (_make_request self "/pro/getLastTsDataPro" get)
            ++ [PrintJson (PDict (default_output now))], 0%Z)%list
    /\ lookup "success" (default_output now) = Some (PBool false)
    /\ lookup "timestamp" (default_output now) = Some (PStr now).
Proof.
  intros self get now later Hfail.
  assert (exists d,
             snd (_make_request self "/pro/getLastTsDataPro" get)
             = Return (PDict d)
             /\ is_api_success (PDict d) = Return false) as Herr.
  { rewrite _make_request_value.
    destruct (get (url self "/pro/getLastTsDataPro")
                  (request_headers self "/pro/getLastTsDataPro"))
      as [r|e]; simpl in Hfail.
    - destruct (status_code r =? 200)%Z eqn:Hs.
      + destruct Hfail as [Hne|[e He]];
          [apply Z.eqb_eq in Hs; contradiction|].
        rewrite He. eexists. split; [reflexivity|].
        rewrite is_api_success_dict. simpl. rewrite Hs. reflexivity.
      + eexists. split; [reflexivity|].
        rewrite is_api_success_dict. simpl. rewrite Hs. reflexivity.
    - rewrite Hfail. eexists. split; [reflexivity|]. reflexivity. }
  split; [exact Herr|]. split; [|split; reflexivity].
  destruct Herr as (d & Hd & Hcheck). unfold main.
  destruct (_make_request self "/pro/getLastTsDataPro" get)
    as [printed answer].
  cbn [fst snd] in *. rewrite Hd. cbn [bind].
  now rewrite (build_output_failed_check now _ Hcheck).
Qed.

Lemma main_after_http_failure_witness :
  main (init "K" "S" "A" "T" "N")
       (fun _ _ => GetReturns
          {| status_code := 200; text := "<html>"; headers := [];
             json := Raise (Exn ValueError "") |})
       "now" "later"
  = (fst (_make_request (init "K" "S" "A" "T" "N") "/pro/getLastTsDataPro"
            (fun _ _ => GetReturns
               {| status_code := 200; text := "<html>"; headers := [];
                  json := Raise (Exn ValueError "") |}))
       ++ [PrintJson (PDict (default_output "now"))], 0%Z)%list.
Proof.
  apply (main_after_http_failure (init "K" "S" "A" "T" "N")
           (fun _ _ => GetReturns
              {| status_code := 200; text := "<html>"; headers := [];
                 json := Raise (Exn ValueError "") |})
           "now" "later").
  right. eexists. reflexivity.
Defined.

(** What [main] does with a 200 whose body parses. *)
Lemma main_on_parsed_body (self : AisweiSolarAPI) (net : transport)
  (now later : string) (r : Response) (v : pyval) :
  net (url self "/pro/getLastTsDataPro")
      (request_headers self "/pro/getLastTsDataPro") = GetReturns r ->
  status_code r = 200%Z -> json r = Return v ->
  main self net now later
  = match build_output now v with
    | Return output_data => ([PrintJson (PDict output_data)], 0%Z)
    | Raise e => ([PrintJson (PDict (error_data e later))], 1%Z)
    end.
Proof.
  intros Hget Hs Hj. unfold main, _make_request.
  rewrite Hget, Hs, Hj. reflexivity.
Qed.

(** X15.  On a 200 whose body is a JSON object, [success] in the printed
    object tells whether the object passed the success check, and nothing
    else: a response that fails the check gives the default output; a
    response that passes it with empty or null [data] gives the default
    output with [success] true, every other value at its default.  The
    exit status is 0 and nothing else is printed. *)
Theorem main_success_flag_follows_the_check :
  forall (self : AisweiSolarAPI) (net : transport) (now later : string)
         (r : Response) (d : dict),
    net (url self "/pro/getLastTsDataPro")
        (request_headers self "/pro/getLastTsDataPro") = GetReturns r ->
    status_code r = 200%Z -> json r = Return (PDict d) ->
    (is_api_success (PDict d) = Return false ->
     main self net now later
     = ([PrintJson (PDict (default_output now))], 0%Z))
    /\ (is_api_success (PDict d) = Return true ->
        truthy (get d "data" (PList [])) = false ->
        main self net now later
        = ([PrintJson (PDict (set "success" (PBool true)
                                  (default_output now)))], 0%Z))
    /\ (forall out,
           main self net now later = ([PrintJson (PDict out)], 0%Z) ->
           exists ok, is_api_success (PDict d) = Return ok
                      /\ lookup "success" out = Some (PBool ok)).
Proof.
  intros self net now later r d Hget Hs Hj.
  rewrite (main_on_parsed_body self net now later r _ Hget Hs Hj).
  split; [|split].
  - intros Hcheck. now rewrite (build_output_failed_check now _ Hcheck).
  - intros Hcheck Hdata. now rewrite (build_output_no_data now _ Hcheck Hdata).
  - intros out Hmain.
    destruct (build_output now (PDict d)) as [out'|e] eqn:Hout;
      [|discriminate].
    injection Hmain as <-.
    destruct (build_output_keys now _ _ Hout)
      as (_ & [(Hcheck & ->)|(rec & Hcheck & _ & Hsucc & _)]).
    + exists false. now split.
    + exists true. now split.
Qed.

Lemma main_success_flag_follows_the_check_witness :
  main (init "K" "S" "A" "T" "N")
       (fun _ _ => GetReturns
          {| status_code := 200; text := ""; headers := [];
             json := Return (PDict [ ("status", PInt 200);
                                     ("info", PStr "success");
                                     ("data", PList []) ]) |})
       "now" "later"
  = ([PrintJson (PDict (set "success" (PBool true)
                            (default_output "now")))], 0%Z).
Proof.
  apply (proj1 (proj2
           (main_success_flag_follows_the_check
              (init "K" "S" "A" "T" "N")
              (fun _ _ => GetReturns
                 {| status_code := 200; text := ""; headers := [];
                    json := Return (PDict [ ("status", PInt 200);
                                            ("info", PStr "success");
                                            ("data", PList []) ]) |})
              "now" "later"
              {| status_code := 200; text := ""; headers := [];
                 json := Return (PDict [ ("status", PInt 200);
                                         ("info", PStr "success");
                                         ("data", PList []) ]) |}
              [ ("status", PInt 200); ("info", PStr "success");
                ("data", PList []) ]
              eq_refl eq_refl eq_refl)));
    reflexivity.
Defined.

(** X16.  On a 200 whose body passes the success check and whose first
    device is a record with its numbers in range, [main] prints one
    object and exits with status 0.  The object has the keys of the
    default output; [success] is true; every key of the normalised record
    carries the value of the record, so that the timestamp printed is the
    [tim] of the device (the empty string if it has none) and not the time
    read at the start. *)
Theorem main_on_a_device_record :
  forall (self : AisweiSolarAPI) (net : transport) (now later : string)
         (r : Response) (d dev : dict),
    net (url self "/pro/getLastTsDataPro")
        (request_headers self "/pro/getLastTsDataPro") = GetReturns r ->
    status_code r = 200%Z -> json r = Return (PDict d) ->
    is_api_success (PDict d) = Return true ->
    truthy (get d "data" (PList [])) = true ->
    first_device (get d "data" (PList [])) = Return (PDict dev) ->
    numbers_in_range dev = true ->
    exists rec out,
      extract_live_data (PDict d) = Return rec
      /\ main self net now later = ([PrintJson (PDict out)], 0%Z)
      /\ keys out = keys (default_output now)
      /\ lookup "success" out = Some (PBool true)
      /\ (forall k, In k record_keys -> lookup k out = lookup k rec)
      /\ lookup "timestamp" out = Some (get dev "tim" (PStr ""))
      /\ lookup "device_name" out = Some (get dev "sn" (PStr "Unknown")).
Proof.
  intros self net now later r d dev Hget Hs Hj Hok Htruthy Hdev Hrange.
  destruct (extract_live_data_returns d dev Hok Htruthy Hdev Hrange)
    as (rec & Hrec & Hkeys).
  assert (build_output now (PDict d)
          = Return (set "success" (PBool true)
                        (update (default_output now) rec))) as Hout.
  { unfold build_output. rewrite Hok. cbn [bind]. now rewrite Hrec. }
  destruct (build_output_keys now _ _ Hout)
    as (Hk & [(Hcheck & _)|(rec' & _ & Hrec' & Hsucc & Hvalues)]);
    [congruence|].
  assert (rec' = rec) as -> by congruence.
  assert (forall k, In k record_keys ->
            lookup k (set "success" (PBool true)
                          (update (default_output now) rec))
            = lookup k rec) as Hall.
  { intros k Hin.
    assert (k <> "success") as Hne
        by (intros ->; now apply success_not_a_record_key).
    rewrite <- Hkeys in Hin.
    destruct (lookup_Some_keys k rec Hin) as [v Hv].
    rewrite Hv. now apply (proj2 (Hvalues k Hne)). }
  exists rec, (set "success" (PBool true) (update (default_output now) rec)).
  split; [exact Hrec|].
  split; [rewrite (main_on_parsed_body self net now later r _ Hget Hs Hj);
          now rewrite Hout|].
  split; [exact Hk|]. split; [exact Hsucc|]. split; [exact Hall|].
  destruct (extract_live_data_inv _ _ Hrec)
    as [->|(devices & dev' & pac & power & state & rest & _ & Hdata & _
             & Hdev' & _ & _ & _ & _ & Hrec_eq)]; [discriminate|].
  cbn [py_get] in Hdata. injection Hdata as <-.
  rewrite Hdev in Hdev'. injection Hdev' as <-.
  split.
  - rewrite Hall by (unfold record_keys; simpl; tauto).
    rewrite Hrec_eq. reflexivity.
  - rewrite Hall by (unfold record_keys; simpl; tauto).
    rewrite Hrec_eq. reflexivity.
Qed.

Lemma main_on_a_device_record_witness :
  exists rec out,
    extract_live_data example_response = Return rec
    /\ main (init "K" "S" "A" "T" "N")
            (fun _ _ => GetReturns
               {| status_code := 200; text := ""; headers := [];
                  json := Return example_response |})
            "now" "later"
       = ([PrintJson (PDict out)], 0%Z)
    /\ keys out = keys (default_output "now")
    /\ lookup "success" out = Some (PBool true)
    /\ (forall k, In k record_keys -> lookup k out = lookup k rec)
    /\ lookup "timestamp" out
       = Some (get [ ("pac", PStr "1500"); ("sn", PStr "X1");
                     ("currentState", PStr "1") ] "tim" (PStr ""))
    /\ lookup "device_name" out
       = Some (get [ ("pac", PStr "1500"); ("sn", PStr "X1");
                     ("currentState", PStr "1") ] "sn" (PStr "Unknown")).
Proof.
  apply (main_on_a_device_record (init "K" "S" "A" "T" "N")
           (fun _ _ => GetReturns
              {| status_code := 200; text := ""; headers := [];
                 json := Return example_response |})
           "now" "later"
           {| status_code := 200; text := ""; headers := [];
              json := Return example_response |}
           [ ("status", PInt 200); ("info", PStr "success");
             ("data", PList [ PDict [ ("pac", PStr "1500");
                                      ("sn", PStr "X1");
                                      ("currentState", PStr "1") ] ]) ]
           [ ("pac", PStr "1500"); ("sn", PStr "X1");
             ("currentState", PStr "1") ]);
    reflexivity.
Defined.

(** * Further properties: order of the parameters, values that are not
      objects, exceptions of the transport *)

(** X17.  Whatever the endpoint and the credentials, the parameters of
    the canonical endpoint stand in ascending order, and there is at least
    one. *)
Theorem canonical_parameters_are_sorted :
  forall (self : AisweiSolarAPI) (endpoint : string),
    Sorted PyStr.le (params_of (canonical_endpoint self endpoint))
    /\ params_of (canonical_endpoint self endpoint) <> []
    /\ canonical_endpoint self endpoint
       = path_of (canonical_endpoint self endpoint) ++ "?"
           ++ join "&" (params_of (canonical_endpoint self endpoint)).
Proof.
  intros self endpoint.
  destruct (add_auth_params_cut self endpoint) as (a & q & Heq & Ha & _).
  unfold canonical_endpoint. rewrite Heq.
  destruct (sort_params_shape a q Ha) as (L & HL & -> & Hz & Hs).
  assert (params_of (a ++ String "?" (join "&" L)) = L) as ->.
  { rewrite CatalogFacts.params_of_cut;
      [exact Hs | exact Ha | now apply contains_false_count]. }
  assert (path_of (a ++ String "?" (join "&" L)) = a) as ->.
  { unfold path_of. now rewrite (split_at_first _ _ _ Ha). }
  split; [rewrite HL; apply sorted_Sorted|].
  split; [rewrite HL; apply sorted_not_nil, split_not_nil | reflexivity].
Qed.

(** X18.  A value that is not an object where the code calls [get] ends
    [main] in its handler.  When the body of a 200 parses to a value that
    is not an object, and when the first device of a successful response
    is not a record, [main] prints the error object, whose [error] is the
    message of the [AttributeError], and exits with status 1. *)
Theorem main_on_a_value_that_is_not_an_object :
  forall (self : AisweiSolarAPI) (net : transport) (now later : string)
         (r : Response) (v : pyval),
    net (url self "/pro/getLastTsDataPro")
        (request_headers self "/pro/getLastTsDataPro") = GetReturns r ->
    status_code r = 200%Z -> json r = Return v ->
    (is_dict v = false ->
     main self net now later
     = ([PrintJson
           (PDict (error_data (Exn AttributeError (no_get_message v))
                              later))], 1%Z))
    /\ (forall (d : dict) (device : pyval),
           v = PDict d ->
           is_api_success (PDict d) = Return true ->
           truthy (get d "data" (PList [])) = true ->
           first_device (get d "data" (PList [])) = Return device ->
           is_dict device = false ->
           extract_live_data v
           = Raise (Exn AttributeError (no_get_message device))
           /\ main self net now later
              = ([PrintJson
                    (PDict (error_data
                              (Exn AttributeError (no_get_message device))
                              later))], 1%Z)).
Proof.
  intros self net now later r v Hget Hs Hj.
  rewrite (main_on_parsed_body self net now later r _ Hget Hs Hj).
  split.
  - intros Hv. unfold build_output, is_api_success.
    destruct v; try discriminate; reflexivity.
  - intros d device -> Hok Htruthy Hdev Hdevice.
    assert (extract_live_data (PDict d)
            = Raise (Exn AttributeError (no_get_message device))) as Hraise.
    { unfold extract_live_data. rewrite Hok. cbn [bind negb py_get].
      rewrite Htruthy. cbn [negb]. rewrite Hdev. cbn [bind].
      destruct device; try discriminate; reflexivity. }
    split; [exact Hraise|].
    unfold build_output. rewrite Hok. cbn [bind]. now rewrite Hraise.
Qed.

Lemma main_on_a_value_that_is_not_an_object_witness :
  main (init "K" "S" "A" "T" "N")
       (fun _ _ => GetReturns
          {| status_code := 200; text := "[]"; headers := [];
             json := Return (PList []) |})
       "now" "later"
  = ([PrintJson
        (PDict (error_data
                  (Exn AttributeError (no_get_message (PList [])))
                  "later"))], 1%Z).
Proof.
  apply (proj1 (main_on_a_value_that_is_not_an_object
                  (init "K" "S" "A" "T" "N")
                  (fun _ _ => GetReturns
                     {| status_code := 200; text := "[]"; headers := [];
                        json := Return (PList []) |})
                  "now" "later"
                  {| status_code := 200; text := "[]"; headers := [];
                     json := Return (PList []) |}
                  (PList []) eq_refl eq_refl eq_refl)).
  reflexivity.
Defined.

(** X19.  [_make_request] catches the exceptions of class
    [RequestException] and no other: an exception of another class raised
    by the transport leaves it as it came, with nothing printed, and
    [main] then prints the error object with the text of the exception
    and exits with status 1. *)
Theorem other_exceptions_leave_the_request :
  forall (self : AisweiSolarAPI) (endpoint : string) (net : transport)
         (e : exn),
    net (url self endpoint) (request_headers self endpoint) = GetRaises e ->
    exn_cls e <> RequestException ->
    _make_request self endpoint net = ([], Raise e)
    /\ (endpoint = "/pro/getLastTsDataPro" ->
        forall now later,
          main self net now later
          = ([PrintJson (PDict (error_data e later))], 1%Z)
          /\ lookup "error" (error_data e later) = Some (PStr (exn_str e))).
Proof.
  intros self endpoint net e Hget Hcls.
  assert (_make_request self endpoint net = ([], Raise e)) as Hreq.
  { unfold _make_request. rewrite Hget.
    destruct (exn_cls e); try reflexivity. contradiction. }
  split; [exact Hreq|].
  intros -> now later. unfold main. rewrite Hreq. split; reflexivity.
Qed.

Lemma other_exceptions_leave_the_request_witness :
  _make_request (init "K" "S" "A" "T" "N") "/pro/getPlanListPro"
    (fun _ _ => GetRaises (Exn OtherException "interrupted"))
  = ([], Raise (Exn OtherException "interrupted")).
Proof.
  apply (other_exceptions_leave_the_request
           (init "K" "S" "A" "T" "N") "/pro/getPlanListPro"
           (fun _ _ => GetRaises (Exn OtherException "interrupted"))
           (Exn OtherException "interrupted") eq_refl).
  discriminate.
Defined.

(** * The date parameter reads back *)

Module DateFacts.
Import PyStr PyStrFacts.

Lemma list_ascii_append (s t : string) :
  list_ascii_of_string (s ++ t)
  = (list_ascii_of_string s ++ list_ascii_of_string t)%list.
Proof. induction s as [|c s IH]; simpl; [reflexivity | now rewrite IH]. Qed.

Lemma digit_val_digit_char (n : Z) :
  PyParse.digit_val (digit_char n) = (n mod 10)%Z.
Proof.
  unfold PyParse.digit_val. rewrite CatalogFacts.code_digit_char. lia.
Qed.

(** The digits written are those of the number. *)
Lemma number_zero_padded (w : nat) (n : Z) :
  PyParse.number (list_ascii_of_string (zero_padded w n))
  = (n mod 10 ^ Z.of_nat w)%Z.
Proof.
  revert n. induction w as [|w IH]; intros n.
  - simpl. now rewrite Z.mod_1_r.
  - cbn [zero_padded]. rewrite list_ascii_append. unfold PyParse.number.
    rewrite fold_left_app. fold (PyParse.number
      (list_ascii_of_string (zero_padded w (n / 10)))).
    rewrite IH. cbn [list_ascii_of_string fold_left].
    rewrite digit_val_digit_char.
    rewrite Nat2Z.inj_succ, Z.pow_succ_r by lia.
    rewrite (Z.rem_mul_r n 10 (10 ^ Z.of_nat w)) by lia. lia.
Qed.

Lemma zero_padded_digits (w : nat) (n : Z) :
  Forall (fun c => PyParse.is_digit c = true)
         (list_ascii_of_string (zero_padded w n)).
Proof.
  revert n. induction w as [|w IH]; intros n; [constructor|].
  cbn [zero_padded]. rewrite list_ascii_append. apply Forall_app.
  split; [apply IH|]. repeat constructor.
  apply CatalogFacts.is_digit_digit_char.
Qed.

Lemma zero_padded_length (w : nat) (n : Z) :
  length (list_ascii_of_string (zero_padded w n)) = w.
Proof.
  revert n. induction w as [|w IH]; intros n; [reflexivity|].
  cbn [zero_padded]. rewrite list_ascii_append, length_app, IH.
  simpl. lia.
Qed.

Lemma digit_not_space (c : ascii) :
  PyParse.is_digit c = true -> PyParse.is_space c = false.
Proof.
  unfold PyParse.is_digit, PyParse.is_space. intros H.
  apply andb_true_iff in H as [H1 H2].
  apply Z.leb_le in H1, H2.
  repeat (apply orb_false_iff; split);
    try (apply andb_false_iff; right; apply Z.leb_gt; lia);
    apply Z.eqb_neq; lia.
Qed.

Lemma digit_not_char (c : ascii) (x : ascii) :
  PyParse.is_digit c = true -> PyParse.is_digit x = false ->
  Ascii.eqb c x = false.
Proof.
  intros Hc Hx. destruct (Ascii.eqb_spec c x) as [->|]; [congruence | auto].
Qed.

Lemma lstrip_digits (l : list ascii) :
  Forall (fun c => PyParse.is_digit c = true) l -> PyParse.lstrip l = l.
Proof.
  intros [|c l' Hc _]; [reflexivity|].
  simpl. now rewrite (digit_not_space c Hc).
Qed.

Lemma drop_underscores_digits (l : list ascii) (b : bool) :
  Forall (fun c => PyParse.is_digit c = true) l ->
  PyParse.drop_underscores b l = Some l.
Proof.
  intros H. revert b. induction H as [|c l' Hc _ IH]; intros b;
    [reflexivity|].
  cbn [PyParse.drop_underscores].
  rewrite (digit_not_char c "_" Hc eq_refl). now rewrite IH.
Qed.

Lemma take_sign_digits (l : list ascii) :
  Forall (fun c => PyParse.is_digit c = true) l ->
  PyParse.take_sign l = (false, l).
Proof.
  intros [|c l' Hc _]; [reflexivity|].
  cbn [PyParse.take_sign].
  now rewrite (digit_not_char c "-" Hc eq_refl),
              (digit_not_char c "+" Hc eq_refl).
Qed.

Lemma take_digits_digits (l : list ascii) :
  Forall (fun c => PyParse.is_digit c = true) l ->
  PyParse.take_digits l = (l, []).
Proof.
  induction 1 as [|c l' Hc _ IH]; [reflexivity|].
  cbn [PyParse.take_digits]. now rewrite Hc, IH.
Qed.

Lemma strip_digits (l : list ascii) :
  Forall (fun c => PyParse.is_digit c = true) l -> PyParse.strip l = l.
Proof.
  intros H. unfold PyParse.strip. rewrite (lstrip_digits l H).
  rewrite lstrip_digits by now apply Forall_rev.
  apply rev_involutive.
Qed.

(** [int] reads a non-empty text of digits, within the limit on their
    number, as its number. *)
Lemma parse_int_digits (s : string) :
  s <> EmptyString ->
  Forall (fun c => PyParse.is_digit c = true) (list_ascii_of_string s) ->
  (length (list_ascii_of_string s) <= PyParse.int_max_str_digits)%nat ->
  PyParse.parse_int s = Some (PyParse.number (list_ascii_of_string s)).
Proof.
  intros Hne H Hlen. unfold PyParse.parse_int.
  rewrite (strip_digits _ H), (drop_underscores_digits _ _ H).
  rewrite (take_sign_digits _ H), (take_digits_digits _ H).
  destruct s as [|c s]; [contradiction|].
  cbn [list_ascii_of_string] in Hlen |- *.
  apply Nat.ltb_ge in Hlen. rewrite Hlen. reflexivity.
Qed.

(** A text of digits beyond the limit is refused. *)
Lemma parse_int_too_long (s : string) :
  Forall (fun c => PyParse.is_digit c = true) (list_ascii_of_string s) ->
  (PyParse.int_max_str_digits < length (list_ascii_of_string s))%nat ->
  PyParse.parse_int s = None.
Proof.
  intros H Hlen. unfold PyParse.parse_int.
  rewrite (strip_digits _ H), (drop_underscores_digits _ _ H).
  rewrite (take_sign_digits _ H), (take_digits_digits _ H).
  destruct s as [|c s]; [reflexivity|].
  cbn [list_ascii_of_string] in Hlen |- *.
  apply Nat.ltb_lt in Hlen. rewrite Hlen. reflexivity.
Qed.

Lemma py_int_zero_padded (w : nat) (n : Z) :
  (0 <= n < 10 ^ Z.of_nat (S w))%Z ->
  (S w <= PyParse.int_max_str_digits)%nat ->
  py_int (PStr (zero_padded (S w) n)) = Return n.
Proof.
  intros Hn Hw. unfold py_int. rewrite parse_int_digits.
  - rewrite number_zero_padded. now rewrite Z.mod_small.
  - intros H. apply (f_equal (fun s => length (list_ascii_of_string s))) in H.
    rewrite zero_padded_length in H. discriminate.
  - apply zero_padded_digits.
  - now rewrite zero_padded_length.
Qed.

Lemma split_date (today : date) :
  split "-" (strftime_Y_m_d today)
  = [zero_padded 4 (year today); zero_padded 2 (month today);
     zero_padded 2 (day today)].
Proof.
  unfold strftime_Y_m_d.
  change (zero_padded 4 (year today) ++ "-" ++ zero_padded 2 (month today)
            ++ "-" ++ zero_padded 2 (day today))
    with (zero_padded 4 (year today)
            ++ String "-" (zero_padded 2 (month today)
                 ++ String "-" (zero_padded 2 (day today)))).
  rewrite split_at_first
    by (apply CatalogFacts.zero_padded_without; reflexivity).
  rewrite split_at_first
    by (apply CatalogFacts.zero_padded_without; reflexivity).
  rewrite split_without
    by (apply CatalogFacts.zero_padded_without; reflexivity).
  reflexivity.
Qed.

End DateFacts.

(** X20.  The date the two dated operations write reads back: for a year
    of at most four digits and a month and a day of at most two, cutting
    the text at its dashes and reading each part with [int] gives the
    year, the month and the day. *)
Theorem date_parameter_reads_back :
  forall today : date,
    (0 <= year today < 10000)%Z ->
    (0 <= month today < 100)%Z ->
    (0 <= day today < 100)%Z ->
    map (fun part => py_int (PStr part)) (split "-" (strftime_Y_m_d today))
    = [Return (year today); Return (month today); Return (day today)]
    /\ params_of (operation_endpoint getInverterETodayPro today)
       = ["date=" ++ strftime_Y_m_d today].
Proof.
  intros today Hy Hm Hd. split.
  - rewrite DateFacts.split_date. cbn [map].
    rewrite !DateFacts.py_int_zero_padded
      by first [simpl; lia | apply Nat.leb_le; reflexivity].
    reflexivity.
  - change (operation_endpoint getInverterETodayPro today)
      with ("/pro/getInverterETodayPro"
              ++ String "?" ("date=" ++ strftime_Y_m_d today)).
    now rewrite params_of_dated.
Qed.

Lemma date_parameter_reads_back_witness :
  map (fun part => py_int (PStr part))
      (split "-" (strftime_Y_m_d {| year := 2026; month := 3; day := 7 |}))
  = [Return 2026%Z; Return 3%Z; Return 7%Z].
Proof.
  apply (proj1 (date_parameter_reads_back
                  {| year := 2026; month := 3; day := 7 |}
                  ltac:(simpl; lia) ltac:(simpl; lia) ltac:(simpl; lia))).
Defined.
